(** * liblinkernsbypass: the linker-namespace bypass library

    A shallow embedding of [android_linker_ns.cpp] and the properties of
    its three parts: the loader symbol resolver
    ([resolve_linker_symbols]), the namespace controller
    ([android_create_namespace], [android_create_namespace_escape],
    [linkernsbypass_namespace_apply_hook]) and the isolated loader
    ([linkernsbypass_dlopen_unique_hooked]).

    The code is a sequence of calls into the platform (the dynamic
    linker, libc, the ELF soname patcher) around a little process-wide
    state.  The platform is a record of oracles that answer each call
    from the history of calls so far and the arguments; the code is
    written in a state monad over the process state, and every platform
    call is logged, with its arguments and its answer, in a trace. *)

From Stdlib Require Import ZArith Lia Bool Ascii String.
From Stdlib Require Import DecimalString DecimalN DecimalFacts DecimalZ.
From stdpp Require Import base option list gmap strings.

Local Open Scope string_scope.
Local Open Scope list_scope.
Local Open Scope Z_scope.

(** ** Pointers, C strings and integer types *)

(** An address; [nullptr] is address zero. *)
Definition ptr : Type := Z.
Definition nullptr : ptr := 0.

(** [const char *]: [None] is the null pointer. *)
Definition cstr : Type := option string.

Definition is_null (p : ptr) : bool := p =? nullptr.

(** [uint16_t] arithmetic wraps modulo 2^16. *)
Definition uint16_wrap (v : Z) : Z := v mod 2 ^ 16.

(** ** printf-style formatting *)

(** [%u] and [%d]: the decimal digits of the number. *)
Definition fmt_u (v : Z) : string :=
  NilZero.string_of_uint (N.to_uint (Z.to_N v)).

Definition fmt_d (v : Z) : string :=
  NilZero.string_of_int (Z.to_int v).

Fixpoint zeros (n : nat) : string :=
  match n with
  | O => EmptyString
  | S k => String "0" (zeros k)
  end.

(** [%03u]: at least three digits, padded on the left with zeros. *)
Definition fmt_03u (v : Z) : string :=
  let s := fmt_u v in
  zeros (3 - String.length s) +:+ s.

(** [snprintf(buf, size, ...)] stores at most [size - 1] characters of the
    formatted text and a terminating NUL; the result is the C string that
    [buf] holds afterwards. *)
Definition snprintf (size : nat) (formatted : string) : string :=
  substring 0 (size - 1) formatted.

Definition PATH_MAX : nat := 4096.

(** ** Constants of the platform headers (bionic, LP64) *)

Definition RTLD_LAZY : Z := 1.
Definition RTLD_GLOBAL : Z := 256.
Definition ANDROID_DLEXT_USE_LIBRARY_FD : Z := 16.
Definition ANDROID_DLEXT_USE_NAMESPACE : Z := 512.
Definition ANDROID_NAMESPACE_TYPE_SHARED : Z := 2.
Definition O_RDWR : Z := 2.
Definition O_CREAT : Z := 64.
Definition S_IRUSR : Z := 256.
Definition S_IWUSR : Z := 128.
Definition ENOSYS : Z := 38.

(** ** The platform *)

(** [android_dlextinfo], with the fields the code sets; the others stay
    zero. *)
Record android_dlextinfo : Type := {
  flags : Z;
  library_fd : Z;
  library_namespace : ptr
}.

(** A call into the platform, with its arguments and, last, its answer. *)
Inductive Event : Type :=
| EvLoaderDlopen (target : ptr) (filename : string) (flag : Z)
    (caller_addr : ptr) (ret : ptr)
| EvDlopen (filename : string) (flag : Z) (ret : ptr)
| EvDlsym (handle : ptr) (symbol : string) (ret : ptr)
| EvCreateNamespace (name ld_library_path default_library_path : cstr)
    (type : Z) (permitted_when_isolated_path : cstr) (parent_namespace : ptr)
    (caller_addr : ptr) (ret : ptr)
| EvLinkNamespacesAllLibs (from to : ptr) (ret : bool)
| EvDlopenExt (filename : cstr) (flag : Z) (extinfo : android_dlextinfo)
    (ret : ptr)
| EvOpen (path : string) (oflags mode : Z) (ret : Z)
| EvMemfdCreate (name : cstr) (mflags : Z) (errno ret : Z)
| EvElfSonamePatch (libPath : cstr) (fd : Z) (soname : string) (ret : bool).

(** The platform answers a call from the history of calls and the
    arguments.  [text_word] is the 32-bit word stored at an address of the
    code segment, [dlopen_addr] the address of the public [dlopen], and
    [hooked_return_addr] the return address that
    [__builtin_return_address(0)] yields for the call of
    [android_create_namespace] made by the isolated loader. *)
Record Platform : Type := {
  text_word : ptr → Z;
  dlopen_addr : ptr;
  hooked_return_addr : ptr;
  plat_loader_dlopen : list Event → ptr → string → Z → ptr → ptr;
  plat_dlopen : list Event → string → Z → ptr;
  plat_dlsym : list Event → ptr → string → ptr;
  plat_create_namespace :
    list Event → cstr → cstr → cstr → Z → cstr → ptr → ptr → ptr;
  plat_link_namespaces_all_libs : list Event → ptr → ptr → bool;
  plat_dlopen_ext : list Event → cstr → Z → android_dlextinfo → ptr;
  plat_open : list Event → string → Z → Z → Z;
  plat_memfd_create : list Event → cstr → Z → Z * Z;
  plat_elf_soname_patch : list Event → cstr → Z → string → bool
}.

(** ** The process state *)

(** The globals and function-level statics of the translation unit, the
    memory the code writes through pointers, and the trace.  A call
    through one of the five resolved function pointers is a call into the
    platform; the code is modelled for a process in which they are
    resolved. *)
Record State : Type := {
  lib_loaded : bool;
  loader_android_create_namespace : ptr;
  android_get_exported_namespace : ptr;
  android_link_namespaces_all_libs : ptr;
  android_link_namespaces : ptr;
  libdl_android_dlopen_ext : ptr;
  TargetId : Z;
  PathBuf : string;
  memory : gmap Z Z;
  trace : list Event
}.

(** Static storage is zero-initialised. *)
Definition process_start : State := {|
  lib_loaded := false;
  loader_android_create_namespace := nullptr;
  android_get_exported_namespace := nullptr;
  android_link_namespaces_all_libs := nullptr;
  android_link_namespaces := nullptr;
  libdl_android_dlopen_ext := nullptr;
  TargetId := 0;
  PathBuf := EmptyString;
  memory := ∅;
  trace := []
|}.

Definition set_lib_loaded (b : bool) (s : State) : State :=
  {| lib_loaded := b;
     loader_android_create_namespace := loader_android_create_namespace s;
     android_get_exported_namespace := android_get_exported_namespace s;
     android_link_namespaces_all_libs := android_link_namespaces_all_libs s;
     android_link_namespaces := android_link_namespaces s;
     libdl_android_dlopen_ext := libdl_android_dlopen_ext s;
     TargetId := TargetId s; PathBuf := PathBuf s;
     memory := memory s; trace := trace s |}.

Definition set_loader_android_create_namespace (p : ptr) (s : State) : State :=
  {| lib_loaded := lib_loaded s;
     loader_android_create_namespace := p;
     android_get_exported_namespace := android_get_exported_namespace s;
     android_link_namespaces_all_libs := android_link_namespaces_all_libs s;
     android_link_namespaces := android_link_namespaces s;
     libdl_android_dlopen_ext := libdl_android_dlopen_ext s;
     TargetId := TargetId s; PathBuf := PathBuf s;
     memory := memory s; trace := trace s |}.

Definition set_android_get_exported_namespace (p : ptr) (s : State) : State :=
  {| lib_loaded := lib_loaded s;
     loader_android_create_namespace := loader_android_create_namespace s;
     android_get_exported_namespace := p;
     android_link_namespaces_all_libs := android_link_namespaces_all_libs s;
     android_link_namespaces := android_link_namespaces s;
     libdl_android_dlopen_ext := libdl_android_dlopen_ext s;
     TargetId := TargetId s; PathBuf := PathBuf s;
     memory := memory s; trace := trace s |}.

Definition set_android_link_namespaces_all_libs (p : ptr) (s : State) : State :=
  {| lib_loaded := lib_loaded s;
     loader_android_create_namespace := loader_android_create_namespace s;
     android_get_exported_namespace := android_get_exported_namespace s;
     android_link_namespaces_all_libs := p;
     android_link_namespaces := android_link_namespaces s;
     libdl_android_dlopen_ext := libdl_android_dlopen_ext s;
     TargetId := TargetId s; PathBuf := PathBuf s;
     memory := memory s; trace := trace s |}.

Definition set_android_link_namespaces (p : ptr) (s : State) : State :=
  {| lib_loaded := lib_loaded s;
     loader_android_create_namespace := loader_android_create_namespace s;
     android_get_exported_namespace := android_get_exported_namespace s;
     android_link_namespaces_all_libs := android_link_namespaces_all_libs s;
     android_link_namespaces := p;
     libdl_android_dlopen_ext := libdl_android_dlopen_ext s;
     TargetId := TargetId s; PathBuf := PathBuf s;
     memory := memory s; trace := trace s |}.

Definition set_libdl_android_dlopen_ext (p : ptr) (s : State) : State :=
  {| lib_loaded := lib_loaded s;
     loader_android_create_namespace := loader_android_create_namespace s;
     android_get_exported_namespace := android_get_exported_namespace s;
     android_link_namespaces_all_libs := android_link_namespaces_all_libs s;
     android_link_namespaces := android_link_namespaces s;
     libdl_android_dlopen_ext := p;
     TargetId := TargetId s; PathBuf := PathBuf s;
     memory := memory s; trace := trace s |}.

Definition set_TargetId (v : Z) (s : State) : State :=
  {| lib_loaded := lib_loaded s;
     loader_android_create_namespace := loader_android_create_namespace s;
     android_get_exported_namespace := android_get_exported_namespace s;
     android_link_namespaces_all_libs := android_link_namespaces_all_libs s;
     android_link_namespaces := android_link_namespaces s;
     libdl_android_dlopen_ext := libdl_android_dlopen_ext s;
     TargetId := v; PathBuf := PathBuf s;
     memory := memory s; trace := trace s |}.

Definition set_PathBuf (b : string) (s : State) : State :=
  {| lib_loaded := lib_loaded s;
     loader_android_create_namespace := loader_android_create_namespace s;
     android_get_exported_namespace := android_get_exported_namespace s;
     android_link_namespaces_all_libs := android_link_namespaces_all_libs s;
     android_link_namespaces := android_link_namespaces s;
     libdl_android_dlopen_ext := libdl_android_dlopen_ext s;
     TargetId := TargetId s; PathBuf := b;
     memory := memory s; trace := trace s |}.

Definition set_memory (m : gmap Z Z) (s : State) : State :=
  {| lib_loaded := lib_loaded s;
     loader_android_create_namespace := loader_android_create_namespace s;
     android_get_exported_namespace := android_get_exported_namespace s;
     android_link_namespaces_all_libs := android_link_namespaces_all_libs s;
     android_link_namespaces := android_link_namespaces s;
     libdl_android_dlopen_ext := libdl_android_dlopen_ext s;
     TargetId := TargetId s; PathBuf := PathBuf s;
     memory := m; trace := trace s |}.

Definition log (e : Event) (s : State) : State :=
  {| lib_loaded := lib_loaded s;
     loader_android_create_namespace := loader_android_create_namespace s;
     android_get_exported_namespace := android_get_exported_namespace s;
     android_link_namespaces_all_libs := android_link_namespaces_all_libs s;
     android_link_namespaces := android_link_namespaces s;
     libdl_android_dlopen_ext := libdl_android_dlopen_ext s;
     TargetId := TargetId s; PathBuf := PathBuf s;
     memory := memory s; trace := trace s ++ [e] |}.

(** ** The state monad of the code *)

Definition M (A : Type) : Type := State → A * State.

Definition ret {A : Type} (a : A) : M A := λ s, (a, s).

Definition bind {A B : Type} (m : M A) (k : A → M B) : M B :=
  λ s, let (a, s') := m s in k a s'.

Definition get {A : Type} (field : State → A) : M A := λ s, (field s, s).

Definition modify (f : State → State) : M unit := λ s, (tt, f s).

Declare Scope linker_scope.
Delimit Scope linker_scope with linker.
Notation "'let*' x := m 'in' k" := (bind m (λ x, k))
  (at level 10, x name, m at level 100, k at level 200) : linker_scope.
Notation "m ;; k" := (bind m (λ _, k))
  (at level 100, k at level 200, right associativity) : linker_scope.
Local Open Scope linker_scope.

(** ** Calls into the platform

    Each call asks the oracle with the trace so far, logs the call with
    its answer and returns the answer. *)

Section Code.

Variable P : Platform.

Definition call_loader_dlopen (target : ptr) (filename : string) (flag : Z)
    (caller_addr : ptr) : M ptr :=
  let* tr := get trace in
  let r := plat_loader_dlopen P tr target filename flag caller_addr in
  modify (log (EvLoaderDlopen target filename flag caller_addr r)) ;;
  ret r.

Definition dlopen (filename : string) (flag : Z) : M ptr :=
  let* tr := get trace in
  let r := plat_dlopen P tr filename flag in
  modify (log (EvDlopen filename flag r)) ;;
  ret r.

Definition dlsym (handle : ptr) (symbol : string) : M ptr :=
  let* tr := get trace in
  let r := plat_dlsym P tr handle symbol in
  modify (log (EvDlsym handle symbol r)) ;;
  ret r.

Definition call_loader_android_create_namespace
    (name ld_library_path default_library_path : cstr) (type : Z)
    (permitted_when_isolated_path : cstr) (parent_namespace : ptr)
    (caller_addr : ptr) : M ptr :=
  let* tr := get trace in
  let r := plat_create_namespace P tr name ld_library_path
             default_library_path type permitted_when_isolated_path
             parent_namespace caller_addr in
  modify (log (EvCreateNamespace name ld_library_path default_library_path
                 type permitted_when_isolated_path parent_namespace
                 caller_addr r)) ;;
  ret r.

Definition call_android_link_namespaces_all_libs (from to : ptr) : M bool :=
  let* tr := get trace in
  let r := plat_link_namespaces_all_libs P tr from to in
  modify (log (EvLinkNamespacesAllLibs from to r)) ;;
  ret r.

Definition call_libdl_android_dlopen_ext (filename : cstr) (flag : Z)
    (extinfo : android_dlextinfo) : M ptr :=
  let* tr := get trace in
  let r := plat_dlopen_ext P tr filename flag extinfo in
  modify (log (EvDlopenExt filename flag extinfo r)) ;;
  ret r.

Definition open (path : string) (oflags mode : Z) : M Z :=
  let* tr := get trace in
  let r := plat_open P tr path oflags mode in
  modify (log (EvOpen path oflags mode r)) ;;
  ret r.

(** [errno = 0; syscall(__NR_memfd_create, name, flags)]: the answer is
    the value of [errno] after the call and the value returned. *)
Definition memfd_create (name : cstr) (mflags : Z) : M (Z * Z) :=
  let* tr := get trace in
  let r := plat_memfd_create P tr name mflags in
  modify (log (EvMemfdCreate name mflags (fst r) (snd r))) ;;
  ret r.

Definition elf_soname_patch (libPath : cstr) (fd : Z) (soname : string)
    : M bool :=
  let* tr := get trace in
  let r := plat_elf_soname_patch P tr libPath fd soname in
  modify (log (EvElfSonamePatch libPath fd soname r)) ;;
  ret r.

(** ** Namespace controller *)

(** [caller_addr] is [__builtin_return_address(0)], the return address of
    the frame that called the function. *)
Definition android_create_namespace (caller_addr : ptr)
    (name ld_library_path default_library_path : cstr) (type : Z)
    (permitted_when_isolated_path : cstr) (parent_namespace : ptr) : M ptr :=
  call_loader_android_create_namespace name ld_library_path
    default_library_path type permitted_when_isolated_path parent_namespace
    caller_addr.

Definition android_create_namespace_escape
    (name ld_library_path default_library_path : cstr) (type : Z)
    (permitted_when_isolated_path : cstr) (parent_namespace : ptr) : M ptr :=
  let caller_addr := dlopen_addr P in
  call_loader_android_create_namespace name ld_library_path
    default_library_path type permitted_when_isolated_path parent_namespace
    caller_addr.

Definition linkernsbypass_load_status : M bool := get lib_loaded.

Definition linkernsbypass_namespace_apply_hook (hookLibName : cstr)
    (hookNs : ptr) (hookParam : ptr) : M bool :=
  let hookExtInfo :=
    {| flags := ANDROID_DLEXT_USE_NAMESPACE;
       library_fd := 0;
       library_namespace := hookNs |} in
  let* hookLib :=
    call_libdl_android_dlopen_ext hookLibName RTLD_GLOBAL hookExtInfo in
  if is_null hookLib then ret false else
  let* hookParamSym := dlsym hookLib "hook_param" in
  if negb (is_null hookParamSym) || negb (is_null hookParam) then
    if negb (is_null hookParamSym) && negb (is_null hookParam) then
      modify (λ s, set_memory (<[hookParamSym := hookParam]> (memory s)) s) ;;
      ret true
    else ret false
  else ret true.

(** ** Isolated loader *)

Definition linkernsbypass_dlopen_unique_hooked (libPath libTargetDir : cstr)
    (mode : Z) (hookLibDir hookLibName : cstr) (parentNs : ptr)
    (linkToDefault : bool) (hookParam : ptr) : M ptr :=
  let* hookNs :=
    android_create_namespace (hooked_return_addr P) libPath hookLibDir None
      ANDROID_NAMESPACE_TYPE_SHARED None parentNs in
  (if linkToDefault then
     let* defaultNs :=
       android_create_namespace_escape (Some "default_copy") None None
         ANDROID_NAMESPACE_TYPE_SHARED None nullptr in
     call_android_link_namespaces_all_libs hookNs defaultNs ;; ret tt
   else ret tt) ;;
  call_android_link_namespaces_all_libs hookNs parentNs ;;
  let* hookOk :=
    match hookLibName with
    | Some _ => linkernsbypass_namespace_apply_hook hookLibName hookNs hookParam
    | None => ret (is_null hookParam)
    end in
  if negb hookOk then ret nullptr else
  let* libTargetFd :=
    match libTargetDir with
    | Some dir =>
        let* id := get TargetId in
        modify (set_PathBuf
                  (snprintf PATH_MAX (dir +:+ "/" +:+ fmt_d id +:+ "_patched.so"))) ;;
        let* path := get PathBuf in
        open path (Z.lor O_CREAT O_RDWR) (Z.lor S_IRUSR S_IWUSR)
    | None =>
        let* r := memfd_create libPath 0 in
        let errno := fst r in
        let fd := snd r in
        if (errno =? ENOSYS) || (fd <? 0) then ret (-1) else ret fd
    end in
  if libTargetFd =? -1 then ret nullptr else
  let* id := get TargetId in
  modify (set_TargetId (uint16_wrap (id + 1))) ;;
  let sonameOverwrite := snprintf 3 (fmt_03u id) in
  let* patched := elf_soname_patch libPath libTargetFd sonameOverwrite in
  if negb patched then ret nullptr else
  let hookExtInfo :=
    {| flags := Z.lor ANDROID_DLEXT_USE_NAMESPACE ANDROID_DLEXT_USE_LIBRARY_FD;
       library_fd := libTargetFd;
       library_namespace := hookNs |} in
  modify (set_PathBuf (snprintf PATH_MAX ("/proc/self/fd/" +:+ fmt_d libTargetFd))) ;;
  let* path := get PathBuf in
  call_libdl_android_dlopen_ext (Some path) mode hookExtInfo.

(** ** Loader symbol resolver *)

(** The union [BranchLinked] over a 32-bit instruction word [raw]:
    [offset] is the bit-field [int32_t offset : 26], the low 26 bits read
    as a signed number, and [sig] the bit-field [uint8_t sig : 6], the
    6 bits above them. *)
Definition BranchLinked_offset (raw : Z) : Z :=
  let field := Z.land raw (Z.ones 26) in
  if Z.testbit field 25 then field - 2 ^ 26 else field.

Definition BranchLinked_sig (raw : Z) : Z :=
  Z.land (Z.shiftr raw 26) (Z.ones 6).

Definition Verify (raw : Z) : bool := BranchLinked_sig raw =? 37.

(** [while (!blInstr->Verify()) blInstr++;] with [fuel] bounding the
    number of words looked at; [blInstr++] advances by the size of the
    union, 4 bytes.  Addresses are unbounded integers: the walk is not
    modelled beyond the end of the address space. *)
Fixpoint walk (fuel : nat) (blInstr : ptr) : option ptr :=
  match fuel with
  | O => None
  | S fuel' =>
      if Verify (text_word P blInstr) then Some blInstr
      else walk fuel' (blInstr + 4)
  end.

(** The lambda that initialises [loader_dlopen]:
    [blInstr + blInstr->offset] is pointer arithmetic on [BranchLinked *],
    in units of 4 bytes. *)
Definition find_loader_dlopen (fuel : nat) : option ptr :=
  match walk fuel (dlopen_addr P) with
  | Some blInstr =>
      Some (blInstr + 4 * BranchLinked_offset (text_word P blInstr))
  | None => None
  end.

(** The body of [resolve_linker_symbols] after [loader_dlopen] is found. *)
Definition resolve_from (loader_dlopen : ptr) : M unit :=
  let* ldHandle :=
    call_loader_dlopen loader_dlopen "ld-android.so" RTLD_LAZY (dlopen_addr P) in
  if is_null ldHandle then ret tt else
  let* sym := dlsym ldHandle "__loader_android_link_namespaces_all_libs" in
  modify (set_android_link_namespaces_all_libs sym) ;;
  if is_null sym then ret tt else
  let* sym := dlsym ldHandle "__loader_android_link_namespaces" in
  modify (set_android_link_namespaces sym) ;;
  if is_null sym then ret tt else
  let* libdlAndroidHandle :=
    call_loader_dlopen loader_dlopen "libdl_android.so" RTLD_LAZY (dlopen_addr P) in
  if is_null libdlAndroidHandle then ret tt else
  let* sym := dlsym libdlAndroidHandle "__loader_android_create_namespace" in
  modify (set_loader_android_create_namespace sym) ;;
  if is_null sym then ret tt else
  let* sym := dlsym libdlAndroidHandle "__loader_android_get_exported_namespace" in
  modify (set_android_get_exported_namespace sym) ;;
  if is_null sym then ret tt else
  let* libdlHandle := dlopen "libdl.so" RTLD_LAZY in
  if is_null libdlHandle then ret tt else
  let* sym := dlsym libdlHandle "android_dlopen_ext" in
  modify (set_libdl_android_dlopen_ext sym) ;;
  if is_null sym then ret tt else
  modify (set_lib_loaded true).

(** The constructor [resolve_linker_symbols]; [None] when the walk has
    not found a branch-with-link word within [fuel] words. *)
Definition resolve_linker_symbols (fuel : nat) (s : State) : option State :=
  match find_loader_dlopen fuel with
  | Some loader_dlopen => Some (snd (resolve_from loader_dlopen s))
  | None => None
  end.

End Code.

(** ** Runs of the public interface *)

(** The arguments of one call of [linkernsbypass_dlopen_unique_hooked]. *)
Record LoadRequest : Type := {
  libPath : cstr;
  libTargetDir : cstr;
  mode : Z;
  hookLibDir : cstr;
  hookLibName : cstr;
  parentNs : ptr;
  linkToDefault : bool;
  hookParam : ptr
}.

Definition load (P : Platform) (rq : LoadRequest) : M ptr :=
  linkernsbypass_dlopen_unique_hooked P (libPath rq) (libTargetDir rq)
    (mode rq) (hookLibDir rq) (hookLibName rq) (parentNs rq)
    (linkToDefault rq) (hookParam rq).

(** Serialized calls of the isolated loader, one after the other. *)
Fixpoint run_loads (P : Platform) (rqs : list LoadRequest) : M (list ptr) :=
  match rqs with
  | [] => ret []
  | rq :: rest =>
      let* r := load P rq in
      let* rs := run_loads P rest in
      ret (r :: rs)
  end.

(** A call of one of the exported functions. *)
Inductive ApiCall : Type :=
| CallLoadStatus
| CallCreateNamespace (caller_addr : ptr)
    (name ld_library_path default_library_path : cstr) (type : Z)
    (permitted_when_isolated_path : cstr) (parent_namespace : ptr)
| CallCreateNamespaceEscape
    (name ld_library_path default_library_path : cstr) (type : Z)
    (permitted_when_isolated_path : cstr) (parent_namespace : ptr)
| CallApplyHook (hookLibName : cstr) (hookNs : ptr) (hookParam : ptr)
| CallDlopenUniqueHooked (rq : LoadRequest).

Inductive ApiResult : Type :=
| ResBool (b : bool)
| ResPtr (p : ptr).

Definition run_call (P : Platform) (c : ApiCall) : M ApiResult :=
  match c with
  | CallLoadStatus =>
      let* b := linkernsbypass_load_status in ret (ResBool b)
  | CallCreateNamespace ca n l d t pw pn =>
      let* p := android_create_namespace P ca n l d t pw pn in ret (ResPtr p)
  | CallCreateNamespaceEscape n l d t pw pn =>
      let* p := android_create_namespace_escape P n l d t pw pn in
      ret (ResPtr p)
  | CallApplyHook n ns hp =>
      let* b := linkernsbypass_namespace_apply_hook P n ns hp in
      ret (ResBool b)
  | CallDlopenUniqueHooked rq =>
      let* p := load P rq in ret (ResPtr p)
  end.

Fixpoint run_calls (P : Platform) (cs : list ApiCall) : M (list ApiResult) :=
  match cs with
  | [] => ret []
  | c :: rest =>
      let* r := run_call P c in
      let* rs := run_calls P rest in
      ret (r :: rs)
  end.

(** ** Reading a trace *)

(** The events that a computation started in [s] and ended in [s'] added. *)
Definition new_events (s s' : State) : list Event :=
  drop (length (trace s)) (trace s').

(** The replacement identity handed to the soname patcher, if the event is
    a call of it. *)
Definition identity_of (e : Event) : option string :=
  match e with
  | EvElfSonamePatch _ _ soname _ => Some soname
  | _ => None
  end.

(** The identities derived along a trace, in order. *)
Definition identities (tr : list Event) : list string := omap identity_of tr.

(** A symbol or library resolution of the resolver and its success. *)
Definition resolution_succeeded (e : Event) : bool :=
  match e with
  | EvLoaderDlopen _ _ _ _ r => negb (is_null r)
  | EvDlopen _ _ r => negb (is_null r)
  | EvDlsym _ _ r => negb (is_null r)
  | _ => true
  end.

(** A request of a destination on disk. *)
Definition is_open (e : Event) : bool :=
  match e with
  | EvOpen _ _ _ _ => true
  | _ => false
  end.

(** A request of a destination, on disk or in memory. *)
Definition is_destination (e : Event) : bool :=
  match e with
  | EvOpen _ _ _ _ | EvMemfdCreate _ _ _ _ => true
  | _ => false
  end.

(** An extended load that is given a file descriptor. *)
Definition is_fd_load (e : Event) : bool :=
  match e with
  | EvDlopenExt _ _ ext _ =>
      negb (Z.land (flags ext) ANDROID_DLEXT_USE_LIBRARY_FD =? 0)
  | _ => false
  end.


(** A call of the soname patcher that failed. *)
Definition patch_failed (e : Event) : bool :=
  match e with
  | EvElfSonamePatch _ _ _ r => negb r
  | _ => false
  end.

(** A creation of an anonymous memory-backed file that the loader takes as
    failed: [errno == ENOSYS || fd < 0]. *)
Definition memfd_failed (e : Event) : bool :=
  match e with
  | EvMemfdCreate _ _ errno r => (errno =? ENOSYS) || (r <? 0)
  | _ => false
  end.

(** A request of a destination that yields a descriptor other than -1. *)
Definition descriptor_obtained (e : Event) : bool :=
  match e with
  | EvOpen _ _ _ r => negb (r =? -1)
  | EvMemfdCreate _ _ errno r => negb ((errno =? ENOSYS) || (r <? 0))
  | _ => false
  end.

(** The namespace that the first event of a call created, if it is a
    namespace creation. *)
Definition created_namespace (evs : list Event) : option ptr :=
  match evs with
  | EvCreateNamespace _ _ _ _ _ _ _ r :: _ => Some r
  | _ => None
  end.

(** Result, final state and events of one call of the isolated loader
    and of one application of a hook. *)
Definition load_result (P : Platform) (rq : LoadRequest) (s : State) : ptr :=
  (load P rq s).1.

Definition load_state (P : Platform) (rq : LoadRequest) (s : State) : State :=
  (load P rq s).2.

Definition load_events (P : Platform) (rq : LoadRequest) (s : State)
    : list Event :=
  new_events s (load_state P rq s).

Definition hook_result (P : Platform) (name : cstr) (ns param : ptr)
    (s : State) : bool :=
  (linkernsbypass_namespace_apply_hook P name ns param s).1.

Definition hook_state (P : Platform) (name : cstr) (ns param : ptr)
    (s : State) : State :=
  (linkernsbypass_namespace_apply_hook P name ns param s).2.

Definition hook_events (P : Platform) (name : cstr) (ns param : ptr)
    (s : State) : list Event :=
  new_events s (hook_state P name ns param s).

(** The state after a run of serialized loads from process start. *)
Definition loads_state (P : Platform) (rqs : list LoadRequest) : State :=
  (run_loads P rqs process_start).2.

(** The [android_dlextinfo] that [linkernsbypass_namespace_apply_hook]
    builds for namespace [ns]. *)
Definition hook_extinfo (ns : ptr) : android_dlextinfo :=
  {| flags := ANDROID_DLEXT_USE_NAMESPACE;
     library_fd := 0;
     library_namespace := ns |}.

(** ** The directory of a path, in the words of the specification *)

(** The index after the last ['/'] of [s], counted from [i]. *)
Fixpoint after_last_slash (s : string) (i : nat) (last : nat) : nat :=
  match s with
  | EmptyString => last
  | String c rest =>
      if Ascii.eqb c "/" then after_last_slash rest (S i) (S i)
      else after_last_slash rest (S i) last
  end.

(** The target library's own directory: the path up to its last ['/']. *)
Definition spec_own_directory (path : string) : string :=
  substring 0 (after_last_slash path 0 0 - 1) path.

(** ** Sample platforms *)

(** A platform that answers every call of one kind alike. *)
Definition uniform_platform (word : ptr → Z) (ns hook slot lib : ptr)
    (fd : Z) (memfd : Z * Z) (patched : bool) : Platform := {|
  text_word := word;
  dlopen_addr := 4096;
  hooked_return_addr := 8192;
  plat_loader_dlopen := λ _ _ _ _ _, 1000;
  plat_dlopen := λ _ _ _, 3000;
  plat_dlsym := λ _ _ symbol,
    if String.eqb symbol "hook_param" then slot else 5000;
  plat_create_namespace := λ _ _ _ _ _ _ _ _, ns;
  plat_link_namespaces_all_libs := λ _ _ _, true;
  plat_dlopen_ext := λ _ _ _ ext,
    if Z.land (flags ext) ANDROID_DLEXT_USE_LIBRARY_FD =? 0 then hook else lib;
  plat_open := λ _ _ _ _, fd;
  plat_memfd_create := λ _ _ _, memfd;
  plat_elf_soname_patch := λ _ _ _ _, patched
|}.

(** The prologue of a [dlopen] trampoline: three words that are no
    branch-with-link, then [bl] with offset 16 words. *)
Definition sample_text (a : ptr) : Z :=
  if a =? 4096 then 2847898621
  else if a =? 4100 then 2432697341
  else if a =? 4104 then 2854093794
  else if a =? 4108 then 2483027984
  else 0.

(** Everything succeeds: namespace 700, hook library 710 with its
    parameter slot at 720, descriptor 3, loaded library 730. *)
Definition good_platform : Platform :=
  uniform_platform sample_text 700 710 720 730 3 (0, 3) true.

Definition sample_request : LoadRequest := {|
  libPath := Some "/vendor/lib64/libtarget.so";
  libTargetDir := Some "/data/cache";
  mode := RTLD_LAZY;
  hookLibDir := Some "/data/hooks";
  hookLibName := None;
  parentNs := 600;
  linkToDefault := false;
  hookParam := nullptr
|}.

(** A request with a hook and its parameter, for a destination in memory. *)
Definition memory_request : LoadRequest := {|
  libPath := Some "/vendor/lib64/libtarget.so";
  libTargetDir := None;
  mode := RTLD_LAZY;
  hookLibDir := Some "/data/hooks";
  hookLibName := Some "libhook.so";
  parentNs := 600;
  linkToDefault := true;
  hookParam := 4242
|}.

(** A request that passes a hook parameter but names no hook. *)
Definition orphan_param_request : LoadRequest := {|
  libPath := Some "/vendor/lib64/libtarget.so";
  libTargetDir := Some "/data/cache";
  mode := RTLD_LAZY;
  hookLibDir := Some "/data/hooks";
  hookLibName := None;
  parentNs := 600;
  linkToDefault := false;
  hookParam := 4242
|}.

(** A platform on which no namespace can be created and no extended load
    succeeds; files can be opened and patched. *)
Definition no_namespace_platform : Platform :=
  uniform_platform sample_text nullptr nullptr nullptr nullptr 3 (0, 3) true.

(** A platform on which the soname patcher fails. *)
Definition no_patch_platform : Platform :=
  uniform_platform sample_text 700 710 720 730 3 (0, 3) false.

(** A platform whose kernel has no [memfd_create]. *)
Definition no_memfd_platform : Platform :=
  uniform_platform sample_text 700 710 720 730 3 (ENOSYS, -1) true.

(** A platform whose hook library has no parameter slot. *)
Definition no_slot_platform : Platform :=
  uniform_platform sample_text 700 710 nullptr 730 3 (0, 3) true.

(** ** Further readings of a trace *)

(** A load of a hook library (global, into a namespace, without a file
    descriptor) that returned the null pointer. *)
Definition failed_hook_load (e : Event) : bool :=
  match e with
  | EvDlopenExt _ flag ext r =>
      (flag =? RTLD_GLOBAL) && (flags ext =? ANDROID_DLEXT_USE_NAMESPACE)
      && is_null r
  | _ => false
  end.

(** A lookup of the parameter slot whose answer does not fit the
    parameter: a slot without a parameter, or a parameter without a slot. *)
Definition slot_mismatch (param : ptr) (e : Event) : bool :=
  match e with
  | EvDlsym _ symbol r =>
      String.eqb symbol "hook_param" && xorb (is_null r) (is_null param)
  | _ => false
  end.

Definition is_symbol_lookup (e : Event) : bool :=
  match e with
  | EvDlsym _ _ _ => true
  | _ => false
  end.

Definition is_namespace_creation (e : Event) : bool :=
  match e with
  | EvCreateNamespace _ _ _ _ _ _ _ _ => true
  | _ => false
  end.

Definition is_namespace_link (e : Event) : bool :=
  match e with
  | EvLinkNamespacesAllLibs _ _ _ => true
  | _ => false
  end.

(** The descriptor that a request of a destination returned. *)
Definition descriptor_of (e : Event) : Z :=
  match e with
  | EvOpen _ _ _ r => r
  | EvMemfdCreate _ _ _ r => r
  | _ => -1
  end.

(** The last [n] events of a list. *)
Definition last_events (n : nat) (evs : list Event) : list Event :=
  drop (length evs - n) evs.

(** The [android_dlextinfo] that the loader builds for the final load of
    descriptor [fd] into namespace [ns]. *)
Definition load_extinfo (fd : Z) (ns : ptr) : android_dlextinfo :=
  {| flags := Z.lor ANDROID_DLEXT_USE_NAMESPACE ANDROID_DLEXT_USE_LIBRARY_FD;
     library_fd := fd;
     library_namespace := ns |}.

(** The text that the loader formats for the final load of descriptor
    [fd]. *)
Definition proc_fd_path (fd : Z) : string :=
  snprintf PATH_MAX ("/proc/self/fd/" +:+ fmt_d fd).



(** The text that the loader formats for the patched copy in directory
    [dir] when the counter is [id]. *)
Definition target_path (dir : string) (id : Z) : string :=
  snprintf PATH_MAX (dir +:+ "/" +:+ fmt_d id +:+ "_patched.so").

(** A platform like [good_platform] on which the public [dlopen] opens
    nothing. *)
Definition no_libdl_platform : Platform := {|
  text_word := text_word good_platform;
  dlopen_addr := dlopen_addr good_platform;
  hooked_return_addr := hooked_return_addr good_platform;
  plat_loader_dlopen := plat_loader_dlopen good_platform;
  plat_dlopen := λ _ _ _, nullptr;
  plat_dlsym := plat_dlsym good_platform;
  plat_create_namespace := plat_create_namespace good_platform;
  plat_link_namespaces_all_libs := plat_link_namespaces_all_libs good_platform;
  plat_dlopen_ext := plat_dlopen_ext good_platform;
  plat_open := plat_open good_platform;
  plat_memfd_create := plat_memfd_create good_platform;
  plat_elf_soname_patch := plat_elf_soname_patch good_platform
|}.

(** A platform on which no file opens. *)
Definition no_file_platform : Platform :=
  uniform_platform sample_text 700 710 720 730 (-1) (0, 3) true.

Definition is_memfd (e : Event) : bool :=
  match e with
  | EvMemfdCreate _ _ _ _ => true
  | _ => false
  end.

(** The answer of an extended load. *)
Definition load_answer (e : Event) : ptr :=
  match e with
  | EvDlopenExt _ _ _ r => r
  | _ => nullptr
  end.

(** ** Answers of the platform *)

(** What the platform answers, in state [s], to the load of the hook
    library [name] into namespace [ns]. *)
Definition hook_library (P : Platform) (name : cstr) (ns : ptr) (s : State)
    : ptr :=
  plat_dlopen_ext P (trace s) name RTLD_GLOBAL (hook_extinfo ns).

(** What the platform answers to the lookup of the parameter slot in that
    library, asked after the load. *)
Definition hook_slot (P : Platform) (name : cstr) (ns : ptr) (s : State)
    : ptr :=
  plat_dlsym P
    (trace s
     ++ [EvDlopenExt name RTLD_GLOBAL (hook_extinfo ns)
           (hook_library P name ns s)])
    (hook_library P name ns s) "hook_param".

(** The answer that a resolution event carries. *)
Definition resolution_answer (e : Event) : ptr :=
  match e with
  | EvLoaderDlopen _ _ _ _ r => r
  | EvDlopen _ _ r => r
  | EvDlsym _ _ r => r
  | _ => nullptr
  end.

(** The eight resolutions of lines 177 to 205, in order, each put to the
    platform after the ones before it: the event of each carries the
    platform's answer, and a lookup is made in the handle that the
    opening before it answered.  [target] is the address found by the
    walk. *)
Definition resolver_events (P : Platform) (target : ptr) : list Event :=
  let open_private tr lib :=
    EvLoaderDlopen target lib RTLD_LAZY (dlopen_addr P)
      (plat_loader_dlopen P tr target lib RTLD_LAZY (dlopen_addr P)) in
  let lookup tr handle symbol :=
    EvDlsym handle symbol (plat_dlsym P tr handle symbol) in
  let e1 := open_private [] "ld-android.so" in
  let ldHandle := resolution_answer e1 in
  let e2 :=
    lookup [e1] ldHandle "__loader_android_link_namespaces_all_libs" in
  let e3 := lookup [e1; e2] ldHandle "__loader_android_link_namespaces" in
  let e4 := open_private [e1; e2; e3] "libdl_android.so" in
  let libdlAndroidHandle := resolution_answer e4 in
  let e5 :=
    lookup [e1; e2; e3; e4] libdlAndroidHandle
      "__loader_android_create_namespace" in
  let e6 :=
    lookup [e1; e2; e3; e4; e5] libdlAndroidHandle
      "__loader_android_get_exported_namespace" in
  let e7 :=
    EvDlopen "libdl.so" RTLD_LAZY
      (plat_dlopen P [e1; e2; e3; e4; e5; e6] "libdl.so" RTLD_LAZY) in
  let libdlHandle := resolution_answer e7 in
  let e8 :=
    lookup [e1; e2; e3; e4; e5; e6; e7] libdlHandle "android_dlopen_ext" in
  [e1; e2; e3; e4; e5; e6; e7; e8].

(** The events of a list up to and with the first resolution that
    failed. *)
Fixpoint upto_first_failure (evs : list Event) : list Event :=
  match evs with
  | [] => []
  | e :: rest =>
      if resolution_succeeded e then e :: upto_first_failure rest else [e]
  end.

(** The answer of the lookup of [symbol] that a trace holds; null when the
    trace holds none. *)
Fixpoint lookup_answer (symbol : string) (tr : list Event) : ptr :=
  match tr with
  | [] => nullptr
  | EvDlsym _ sym r :: rest =>
      if String.eqb sym symbol then r else lookup_answer symbol rest
  | _ :: rest => lookup_answer symbol rest
  end.

(** A platform like [good_platform] whose code segment holds no
    branch-with-link word. *)
Definition no_branch_platform : Platform := {|
  text_word := λ _, 0;
  dlopen_addr := dlopen_addr good_platform;
  hooked_return_addr := hooked_return_addr good_platform;
  plat_loader_dlopen := plat_loader_dlopen good_platform;
  plat_dlopen := plat_dlopen good_platform;
  plat_dlsym := plat_dlsym good_platform;
  plat_create_namespace := plat_create_namespace good_platform;
  plat_link_namespaces_all_libs := plat_link_namespaces_all_libs good_platform;
  plat_dlopen_ext := plat_dlopen_ext good_platform;
  plat_open := plat_open good_platform;
  plat_memfd_create := plat_memfd_create good_platform;
  plat_elf_soname_patch := plat_elf_soname_patch good_platform
|}.


(** ** Weakest preconditions for the state monad *)

Definition wp {A : Type} (m : M A) (Q : A → State → Prop) (s : State) : Prop :=
  Q (m s).1 (m s).2.

(** * Properties *)

(** ** Symbolic execution of the code *)

Section WP.
Context {A B : Type}.

Lemma wp_bind (m : M A) (k : A → M B) (Q : B → State → Prop) (s : State) :
  wp m (λ a s', wp (k a) Q s') s → wp (bind m k) Q s.
Proof. unfold wp, bind. by destruct (m s). Qed.

Lemma wp_ret (a : A) (Q : A → State → Prop) (s : State) :
  Q a s → wp (ret a) Q s.
Proof. done. Qed.

Lemma wp_get (field : State → A) (Q : A → State → Prop) (s : State) :
  Q (field s) s → wp (get field) Q s.
Proof. done. Qed.

Lemma wp_modify (f : State → State) (Q : unit → State → Prop) (s : State) :
  Q tt (f s) → wp (modify f) Q s.
Proof. done. Qed.

End WP.

(** A platform call may answer anything; it logs the call with the
    answer. *)
Section WPCalls.
Variable P : Platform.

Lemma wp_call_loader_dlopen t f fl ca (Q : ptr → State → Prop) s :
  (∀ r, Q r (log (EvLoaderDlopen t f fl ca r) s)) →
  wp (call_loader_dlopen P t f fl ca) Q s.
Proof. intros H. apply H. Qed.

Lemma wp_dlopen f fl (Q : ptr → State → Prop) s :
  (∀ r, Q r (log (EvDlopen f fl r) s)) → wp (dlopen P f fl) Q s.
Proof. intros H. apply H. Qed.

Lemma wp_dlsym h sym (Q : ptr → State → Prop) s :
  (∀ r, Q r (log (EvDlsym h sym r) s)) → wp (dlsym P h sym) Q s.
Proof. intros H. apply H. Qed.

Lemma wp_create_namespace n l d t pw pn ca (Q : ptr → State → Prop) s :
  (∀ r, Q r (log (EvCreateNamespace n l d t pw pn ca r) s)) →
  wp (call_loader_android_create_namespace P n l d t pw pn ca) Q s.
Proof. intros H. apply H. Qed.

Lemma wp_link_all from to (Q : bool → State → Prop) s :
  (∀ r, Q r (log (EvLinkNamespacesAllLibs from to r) s)) →
  wp (call_android_link_namespaces_all_libs P from to) Q s.
Proof. intros H. apply H. Qed.

Lemma wp_dlopen_ext f fl ext (Q : ptr → State → Prop) s :
  (∀ r, Q r (log (EvDlopenExt f fl ext r) s)) →
  wp (call_libdl_android_dlopen_ext P f fl ext) Q s.
Proof. intros H. apply H. Qed.

Lemma wp_open p fl md (Q : Z → State → Prop) s :
  (∀ r, Q r (log (EvOpen p fl md r) s)) → wp (open P p fl md) Q s.
Proof. intros H. apply H. Qed.

Lemma wp_memfd_create n fl (Q : Z * Z → State → Prop) s :
  (∀ e r, Q (e, r) (log (EvMemfdCreate n fl e r) s)) →
  wp (memfd_create P n fl) Q s.
Proof.
  intros H. unfold wp, memfd_create, bind, get, modify, ret. cbn.
  destruct (plat_memfd_create P (trace s) n fl) as [e r]. apply H.
Qed.

Lemma wp_elf_soname_patch lp fd so (Q : bool → State → Prop) s :
  (∀ r, Q r (log (EvElfSonamePatch lp fd so r) s)) →
  wp (elf_soname_patch P lp fd so) Q s.
Proof. intros H. apply H. Qed.

End WPCalls.

Ltac wp_step :=
  lazymatch goal with
  | |- wp (bind _ _) _ _ => apply wp_bind
  | |- wp (ret _) _ _ => apply wp_ret
  | |- wp (get _) _ _ => apply wp_get
  | |- wp (modify _) _ _ => apply wp_modify
  | |- wp (call_loader_dlopen _ _ _ _ _) _ _ =>
      apply wp_call_loader_dlopen; intros ?
  | |- wp (dlopen _ _ _) _ _ => apply wp_dlopen; intros ?
  | |- wp (dlsym _ _ _) _ _ => apply wp_dlsym; intros ?
  | |- wp (call_loader_android_create_namespace _ _ _ _ _ _ _ _) _ _ =>
      apply wp_create_namespace; intros ?
  | |- wp (call_android_link_namespaces_all_libs _ _ _) _ _ =>
      apply wp_link_all; intros ?
  | |- wp (call_libdl_android_dlopen_ext _ _ _ _) _ _ =>
      apply wp_dlopen_ext; intros ?
  | |- wp (open _ _ _ _) _ _ => apply wp_open; intros ?
  | |- wp (memfd_create _ _ _) _ _ => apply wp_memfd_create; intros ? ?
  | |- wp (elf_soname_patch _ _ _ _) _ _ =>
      apply wp_elf_soname_patch; intros ?
  | |- wp (android_create_namespace _ _ _ _ _ _ _ _) _ _ =>
      unfold android_create_namespace
  | |- wp (android_create_namespace_escape _ _ _ _ _ _ _) _ _ =>
      unfold android_create_namespace_escape; cbv zeta
  | |- wp (linkernsbypass_namespace_apply_hook _ _ _ _) _ _ =>
      unfold linkernsbypass_namespace_apply_hook; cbv zeta
  | |- wp linkernsbypass_load_status _ _ =>
      unfold linkernsbypass_load_status
  | |- wp (load _ _) _ _ =>
      unfold load, linkernsbypass_dlopen_unique_hooked
  | |- wp (if ?b then _ else _) _ _ => destruct b eqn:?
  | |- wp (match ?x with _ => _ end) _ _ => destruct x eqn:?
  | |- wp (let _ := _ in _) _ _ => cbv zeta
  end; cbn beta iota delta [fst snd].

Ltac wp_run := repeat wp_step.

Ltac simpl_state :=
  cbn [trace log set_memory set_PathBuf set_TargetId set_lib_loaded
       set_loader_android_create_namespace set_android_get_exported_namespace
       set_android_link_namespaces_all_libs set_android_link_namespaces
       set_libdl_android_dlopen_ext
       memory TargetId PathBuf lib_loaded fst snd].

Ltac simpl_events :=
  unfold new_events; simpl_state;
  rewrite <- ?app_assoc; cbn [app]; rewrite ?drop_app_length.

Lemma is_null_true (p : ptr) : is_null p = true ↔ p = nullptr.
Proof. unfold is_null. apply Z.eqb_eq. Qed.

Lemma is_null_false (p : ptr) : is_null p = false ↔ p ≠ nullptr.
Proof. unfold is_null. apply Z.eqb_neq. Qed.

(** Boolean tests of the code, as propositions. *)
Ltac norm_bools :=
  repeat match goal with
    | H : _ |- _ =>
        first
          [ rewrite orb_true_iff in H | rewrite orb_false_iff in H
          | rewrite andb_true_iff in H | rewrite andb_false_iff in H
          | rewrite negb_true_iff in H | rewrite negb_false_iff in H
          | rewrite is_null_true in H | rewrite is_null_false in H
          | rewrite Z.eqb_eq in H | rewrite Z.eqb_neq in H
          | rewrite Z.ltb_lt in H | rewrite Z.ltb_ge in H ]
    | H : _ ∧ _ |- _ => destruct H
    | H : _ ∨ _ |- _ => destruct H
    end.

(** Close a goal that is a boolean test of the code. *)
Ltac bool_goal :=
  rewrite ?orb_true_iff, ?orb_false_iff, ?andb_true_iff, ?andb_false_iff,
    ?negb_true_iff, ?negb_false_iff, ?Z.eqb_eq, ?Z.eqb_neq, ?Z.ltb_lt,
    ?Z.ltb_ge;
  first [done | lia | tauto | intuition lia].

(** ** Namespace controller: applying a hook *)

(** C4.  When the platform loads the hook library (its answer to the
    load of the hook into the namespace is not null), the call makes that
    load and the lookup of the parameter slot ["hook_param"] in the
    library, and with the platform's answer to the lookup: with a
    parameter and no slot it fails; with no parameter and no slot it
    succeeds; with a parameter and a slot it succeeds and the slot then
    holds the parameter. *)
Theorem hook_parameter_contract (P : Platform) (name : cstr)
    (ns param : ptr) (s : State) :
  hook_library P name ns s ≠ nullptr →
  hook_events P name ns param s =
    [EvDlopenExt name RTLD_GLOBAL (hook_extinfo ns) (hook_library P name ns s);
     EvDlsym (hook_library P name ns s) "hook_param" (hook_slot P name ns s)]
  ∧ (param ≠ nullptr → hook_slot P name ns s = nullptr →
     hook_result P name ns param s = false)
  ∧ (param = nullptr → hook_slot P name ns s = nullptr →
     hook_result P name ns param s = true)
  ∧ (param ≠ nullptr → hook_slot P name ns s ≠ nullptr →
     hook_result P name ns param s = true
     ∧ memory (hook_state P name ns param s) !! hook_slot P name ns s
       = Some param).
Proof.
  intros Hlib. apply is_null_false in Hlib.
  unfold hook_events, hook_result, hook_state,
    linkernsbypass_namespace_apply_hook, call_libdl_android_dlopen_ext,
    dlsym, bind, ret, get, modify.
  cbn [fst snd trace log].
  change {| flags := ANDROID_DLEXT_USE_NAMESPACE; library_fd := 0;
            library_namespace := ns |} with (hook_extinfo ns).
  change (plat_dlopen_ext P (trace s) name RTLD_GLOBAL (hook_extinfo ns))
    with (hook_library P name ns s).
  rewrite Hlib. cbn [fst snd trace log].
  change (plat_dlsym P
            (trace s
             ++ [EvDlopenExt name RTLD_GLOBAL (hook_extinfo ns)
                   (hook_library P name ns s)])
            (hook_library P name ns s) "hook_param")
    with (hook_slot P name ns s).
  destruct (is_null (hook_slot P name ns s)) eqn:Hslot,
           (is_null param) eqn:Hparam;
    cbn [negb orb andb fst snd trace log set_memory memory];
    simpl_events; norm_bools;
    (split; [reflexivity |]); repeat split; intros;
    first [done | by rewrite lookup_insert_eq].
Qed.

(** The contract on a hook library with a slot at 720 and on one without. *)
Lemma hook_parameter_contract_witness :
  hook_result good_platform (Some "libhook.so") 700 4242 process_start = true
  ∧ memory (hook_state good_platform (Some "libhook.so") 700 4242
              process_start) !! 720 = Some 4242
  ∧ hook_result no_slot_platform (Some "libhook.so") 700 4242 process_start
    = false
  ∧ hook_result no_slot_platform (Some "libhook.so") 700 nullptr process_start
    = true.
Proof.
  destruct (hook_parameter_contract good_platform (Some "libhook.so") 700
              4242 process_start) as (_ & _ & _ & Hset); [discriminate |].
  destruct (hook_parameter_contract no_slot_platform (Some "libhook.so") 700
              4242 process_start) as (_ & Hfail & _ & _); [discriminate |].
  destruct (hook_parameter_contract no_slot_platform (Some "libhook.so") 700
              nullptr process_start) as (_ & _ & Hok & _); [discriminate |].
  split; [apply Hset; discriminate |].
  split; [apply Hset; discriminate |].
  split; [apply Hfail; [discriminate | reflexivity] |].
  apply Hok; reflexivity.
Defined.

(** C10.  When the hook library loads and exposes the parameter slot but
    the caller supplies no parameter, the call fails, and it stores
    nothing. *)
Theorem hook_slot_without_parameter_fails (P : Platform) (name : cstr)
    (ns : ptr) (s : State) (hookLib slot : ptr) :
  hook_events P name ns nullptr s =
    [EvDlopenExt name RTLD_GLOBAL (hook_extinfo ns) hookLib;
     EvDlsym hookLib "hook_param" slot] →
  hookLib ≠ nullptr →
  slot ≠ nullptr →
  hook_result P name ns nullptr s = false
  ∧ memory (hook_state P name ns nullptr s) = memory s.
Proof.
  unfold hook_events, hook_result, hook_state.
  pattern ((linkernsbypass_namespace_apply_hook P name ns nullptr s).1),
          ((linkernsbypass_namespace_apply_hook P name ns nullptr s).2).
  match goal with
  | |- ?Q _ _ =>
      change (wp (linkernsbypass_namespace_apply_hook P name ns nullptr) Q s)
  end.
  wp_run; simpl_events; intros Hev Hlib Hslot; simplify_eq; norm_bools; done.
Qed.

(** A hook library with a slot, applied without a parameter. *)
Lemma hook_slot_without_parameter_fails_witness :
  hook_result good_platform (Some "libhook.so") 700 nullptr process_start
  = false
  ∧ memory (hook_state good_platform (Some "libhook.so") 700 nullptr
              process_start) = memory process_start.
Proof.
  apply (hook_slot_without_parameter_fails good_platform (Some "libhook.so")
           700 process_start 710 720); [reflexivity | discriminate | discriminate].
Defined.

(** ** Isolated loader: one call *)

(** State a goal about one call of the loader as a weakest precondition
    and run the code. *)
Ltac load_wp P rq s :=
  unfold load_events, load_result, load_state;
  pattern ((load P rq s).1), ((load P rq s).2);
  match goal with |- ?Q _ _ => change (wp (load P rq) Q s) end;
  unfold load, linkernsbypass_dlopen_unique_hooked;
  wp_run; simpl_events.

(** Rewrite the goal with the outcomes of the tests made on the path. *)
Ltac use_tests :=
  repeat match goal with
    | H : ?b = true |- context [?b] => rewrite H
    | H : ?b = false |- context [?b] => rewrite H
    end.

Lemma uint16_wrap_succ_neq (c : Z) : uint16_wrap (c + 1) ≠ c.
Proof.
  unfold uint16_wrap. intros H.
  pose proof (Z.mod_pos_bound (c + 1) (2 ^ 16) ltac:(lia)) as Hb.
  assert (c mod 2 ^ 16 = c) as Hc by (apply Z.mod_small; lia).
  rewrite <- Zplus_mod_idemp_l, Hc in H.
  destruct (Z.eq_dec c (2 ^ 16 - 1)) as [-> | Hne].
  - vm_compute in H. discriminate.
  - rewrite Z.mod_small in H; lia.
Qed.

(** C9, as the code has it.  The first step of every call creates a
    namespace named by the target library's path, whose library search
    path is the hook library directory that the caller supplied, with no
    default path and no permitted path, of the shared type, parented under
    the caller's parent namespace, on behalf of the loader's own code. *)
Theorem first_step_creates_namespace (P : Platform) (rq : LoadRequest)
    (s : State) :
  ∃ hookNs : ptr,
    head (load_events P rq s) =
      Some (EvCreateNamespace (libPath rq) (hookLibDir rq) None
              ANDROID_NAMESPACE_TYPE_SHARED None (parentNs rq)
              (hooked_return_addr P) hookNs).
Proof. load_wp P rq s; cbn [head]; eauto. Qed.

(** C9, as stated, fails: for the library [/vendor/lib64/libtarget.so] and
    the hook directory [/data/hooks] the namespace is created with search
    path [/data/hooks], which is not the library's own directory
    [/vendor/lib64]. *)
Lemma search_path_is_not_library_directory :
  head (load_events good_platform sample_request process_start) =
    Some (EvCreateNamespace (Some "/vendor/lib64/libtarget.so")
            (Some "/data/hooks") None ANDROID_NAMESPACE_TYPE_SHARED None
            600 8192 700)
  ∧ spec_own_directory "/vendor/lib64/libtarget.so" = "/vendor/lib64"
  ∧ Some "/data/hooks" ≠ Some (spec_own_directory "/vendor/lib64/libtarget.so").
Proof. split; [reflexivity | split; [reflexivity | discriminate]]. Qed.

(** C6.  When the soname patcher fails in a call, the call returns the
    null pointer, the failed patch is the last thing the call does, and no
    extended load is given a file descriptor. *)
Theorem patch_failure_stops_load (P : Platform) (rq : LoadRequest)
    (s : State) :
  existsb patch_failed (load_events P rq s) = true →
  load_result P rq s = nullptr
  ∧ (∃ e, last (load_events P rq s) = Some e ∧ patch_failed e = true)
  ∧ existsb is_fd_load (load_events P rq s) = false.
Proof.
  load_wp P rq s; cbn [existsb patch_failed is_fd_load flags orb]; intros Hfail;
    norm_bools; try done; subst;
    (split; [done | split; [eexists; split; [reflexivity | done] | done]]).
Qed.

(** A call on a platform whose patcher fails. *)
Lemma patch_failure_stops_load_witness :
  existsb patch_failed (load_events no_patch_platform sample_request
                          process_start) = true
  ∧ load_result no_patch_platform sample_request process_start = nullptr
  ∧ existsb is_fd_load (load_events no_patch_platform sample_request
                          process_start) = false.
Proof.
  split; [reflexivity |].
  destruct (patch_failure_stops_load no_patch_platform sample_request
              process_start) as (Hr & _ & Hfd); [reflexivity |].
  exact (conj Hr Hfd).
Defined.

(** C7.  A call with a null target directory never opens a file on disk;
    and when the creation of the anonymous memory-backed file fails
    ([errno] is [ENOSYS], or the descriptor is negative), the call returns
    the null pointer, the failed creation is the last thing it does, and
    the counter is left as it was. *)
Theorem memfd_failure_has_no_fallback (P : Platform) (rq : LoadRequest)
    (s : State) :
  libTargetDir rq = None →
  existsb is_open (load_events P rq s) = false
  ∧ (existsb memfd_failed (load_events P rq s) = true →
     load_result P rq s = nullptr
     ∧ (∃ e, last (load_events P rq s) = Some e ∧ memfd_failed e = true)
     ∧ TargetId (load_state P rq s) = TargetId s).
Proof.
  intros Hdir. load_wp P rq s; try congruence;
    cbn [existsb is_open memfd_failed orb]; (split; [done |]);
    use_tests; intros Hfail; norm_bools; try done; try lia;
    (split; [done | split; [eexists; split; [reflexivity |] | done]]);
    cbn [memfd_failed]; bool_goal.
Qed.

(** A call without target directory on a kernel without [memfd_create]. *)
Lemma memfd_failure_has_no_fallback_witness :
  libTargetDir memory_request = None
  ∧ existsb memfd_failed (load_events no_memfd_platform memory_request
                            process_start) = true
  ∧ existsb is_open (load_events no_memfd_platform memory_request
                       process_start) = false
  ∧ load_result no_memfd_platform memory_request process_start = nullptr.
Proof.
  split; [reflexivity |]. split; [reflexivity |].
  destruct (memfd_failure_has_no_fallback no_memfd_platform memory_request
              process_start) as (Hopen & Hfail); [reflexivity |].
  split; [exact Hopen |]. apply Hfail. reflexivity.
Defined.

(** The counter is incremented in a call exactly when the call obtains a
    destination descriptor. *)
Lemma load_counter_iff_descriptor (P : Platform) (rq : LoadRequest)
    (s : State) :
  existsb descriptor_obtained (load_events P rq s) = true ↔
  TargetId (load_state P rq s) = uint16_wrap (TargetId s + 1).
Proof.
  load_wp P rq s; cbn [existsb descriptor_obtained orb]; use_tests;
    cbn [negb orb]; pose proof (uint16_wrap_succ_neq (TargetId s));
    split; intros; norm_bools; first [done | congruence | lia].
Qed.






(** ** Decimal renderings *)

Lemma parse_zeros (n : nat) (s : string) (d : Decimal.uint) :
  NilEmpty.uint_of_string s = Some d →
  ∃ d', NilEmpty.uint_of_string (zeros n +:+ s) = Some d'
        ∧ N.of_uint d' = N.of_uint d.
Proof.
  intros Hs. induction n as [|n (d' & Hd' & Hv)].
  - eauto.
  - change (NilEmpty.uint_of_string (zeros (S n) +:+ s))
      with (uint_of_char "0" (NilEmpty.uint_of_string (zeros n +:+ s))).
    rewrite Hd'. eexists; split; [reflexivity |].
    rewrite <- Hv. reflexivity.
Qed.

Lemma to_uint_nonnil (n : N) : N.to_uint n ≠ Decimal.Nil.
Proof.
  rewrite <- (Unsigned.of_to n), Unsigned.to_of. apply unorm_nonnil.
Qed.

Lemma fmt_u_parse (v : Z) :
  NilEmpty.uint_of_string (fmt_u v) = Some (N.to_uint (Z.to_N v)).
Proof.
  unfold fmt_u, NilZero.string_of_uint.
  pose proof (to_uint_nonnil (Z.to_N v)) as Hn.
  destruct (N.to_uint (Z.to_N v)) eqn:E; try done;
    rewrite <- E; apply NilEmpty.usu.
Qed.

(** The text of [%03u] reads back as the number. *)
Lemma fmt_03u_value (v : Z) :
  0 ≤ v →
  ∃ d, NilEmpty.uint_of_string (fmt_03u v) = Some d ∧ Z.of_N (N.of_uint d) = v.
Proof.
  intros Hv. unfold fmt_03u.
  destruct (parse_zeros (3 - String.length (fmt_u v)) _ _ (fmt_u_parse v))
    as (d & Hd & Hval).
  exists d. split; [exact Hd |].
  rewrite Hval, Unsigned.of_to. lia.
Qed.

Lemma fmt_03u_inj (v w : Z) :
  0 ≤ v → 0 ≤ w → fmt_03u v = fmt_03u w → v = w.
Proof.
  intros Hv Hw Heq.
  destruct (fmt_03u_value v Hv) as (d & Hd & <-).
  destruct (fmt_03u_value w Hw) as (d' & Hd' & <-).
  rewrite Heq in Hd. congruence.
Qed.

Lemma prefix_substring (n : nat) (s : string) :
  String.prefix (substring 0 n s) s = true.
Proof.
  revert n. induction s as [|c s IH]; intros [|n]; cbn; try done.
  rewrite IH. by destruct (ascii_dec c c).
Qed.

Lemma snprintf_prefix (size : nat) (s : string) :
  String.prefix (snprintf size s) s = true.
Proof. apply prefix_substring. Qed.

(** ** Isolated loader: serialized calls *)

(** One call extends the trace, and either derives no identity, leaves
    the counter and returns the null pointer, or derives one identity from
    the counter and increments the counter. *)
Lemma load_step (P : Platform) (rq : LoadRequest) (s : State) :
  ∃ evs,
    trace (load_state P rq s) = trace s ++ evs
    ∧ ((identities evs = []
        ∧ TargetId (load_state P rq s) = TargetId s
        ∧ load_result P rq s = nullptr)
       ∨ (identities evs = [snprintf 3 (fmt_03u (TargetId s))]
          ∧ TargetId (load_state P rq s) = uint16_wrap (TargetId s + 1))).
Proof.
  load_wp P rq s; (eexists; split; [reflexivity |]);
    cbn [identities omap identity_of list_omap option_bind mbind];
    first [by left | by right].
Qed.

Lemma run_loads_cons (P : Platform) (rq : LoadRequest)
    (rqs : list LoadRequest) (s : State) :
  (run_loads P (rq :: rqs) s).2 = (run_loads P rqs (load_state P rq s)).2.
Proof.
  unfold load_state. cbn [run_loads]. unfold bind, ret.
  destruct (load P rq s) as [r s1]. cbn [snd].
  by destruct (run_loads P rqs s1).
Qed.

Lemma run_loads_app (P : Platform) (rqs1 rqs2 : list LoadRequest) (s : State) :
  (run_loads P (rqs1 ++ rqs2) s).2 =
  (run_loads P rqs2 (run_loads P rqs1 s).2).2.
Proof.
  revert s. induction rqs1 as [|rq rqs1 IH]; intros s; [done |].
  rewrite <- app_comm_cons, !run_loads_cons. apply IH.
Qed.

Lemma uint16_wrap_range (v : Z) : 0 ≤ uint16_wrap v < 2 ^ 16.
Proof. unfold uint16_wrap. apply Z.mod_pos_bound. lia. Qed.

Lemma uint16_wrap_small (v : Z) : 0 ≤ v < 2 ^ 16 → uint16_wrap v = v.
Proof. unfold uint16_wrap. apply Z.mod_small. Qed.

Lemma uint16_wrap_add_l (v w : Z) :
  uint16_wrap (uint16_wrap v + w) = uint16_wrap (v + w).
Proof. unfold uint16_wrap. apply Zplus_mod_idemp_l. Qed.

(** A run of calls from a state whose counter is a 16-bit value: the k-th
    identity derived is cut from the rendering of the counter advanced by
    k, and the counter ends advanced by the number of identities. *)
Lemma run_loads_counter (P : Platform) (rqs : list LoadRequest) (s : State) :
  0 ≤ TargetId s < 2 ^ 16 →
  ∃ evs,
    trace (run_loads P rqs s).2 = trace s ++ evs
    ∧ TargetId (run_loads P rqs s).2 =
        uint16_wrap (TargetId s + Z.of_nat (length (identities evs)))
    ∧ ∀ (k : nat) (id : string),
        identities evs !! k = Some id →
        id = snprintf 3 (fmt_03u (uint16_wrap (TargetId s + Z.of_nat k))).
Proof.
  revert s. induction rqs as [|rq rqs IH]; intros s Hs.
  - exists []. cbn. rewrite app_nil_r, Z.add_0_r, uint16_wrap_small by done.
    repeat split. intros k id Hk. by rewrite lookup_nil in Hk.
  - rewrite run_loads_cons.
    destruct (load_step P rq s) as (evs1 & Htr1 & Hcase).
    assert (0 ≤ TargetId (load_state P rq s) < 2 ^ 16) as Hs1.
    { destruct Hcase as [(_ & -> & _) | (_ & ->)];
        [done | apply uint16_wrap_range]. }
    destruct (IH _ Hs1) as (evs2 & Htr2 & Hid2 & Hids2).
    exists (evs1 ++ evs2). unfold identities in *.
    rewrite omap_app, length_app, Htr2, Htr1, <- app_assoc.
    split; [done |].
    destruct Hcase as [(Hnone & Hsame & _) | (Hone & Hnext)].
    + rewrite Hnone. cbn [app length]. rewrite Hid2, Hsame.
      split; [done |]. intros k id Hk. rewrite (Hids2 k id Hk). by rewrite Hsame.
    + rewrite Hone. cbn [app length]. rewrite Hid2, Hnext.
      rewrite uint16_wrap_add_l. split; [f_equal; lia |].
      intros [|k] id Hk.
      * injection Hk as <-. by rewrite Z.add_0_r, uint16_wrap_small.
      * cbn in Hk. rewrite (Hids2 k id Hk), Hnext, uint16_wrap_add_l.
        do 3 f_equal. lia.
Qed.

Lemma new_events_app (s s' : State) (evs : list Event) :
  trace s' = trace s ++ evs → new_events s s' = evs.
Proof. unfold new_events. intros ->. by rewrite drop_app_length. Qed.

Lemma loads_state_counter (P : Platform) (rqs : list LoadRequest) :
  TargetId (loads_state P rqs) =
    uint16_wrap (Z.of_nat (length (identities (trace (loads_state P rqs)))))
  ∧ ∀ (k : nat) (id : string),
      identities (trace (loads_state P rqs)) !! k = Some id →
      id = snprintf 3 (fmt_03u (uint16_wrap (Z.of_nat k))).
Proof.
  unfold loads_state.
  destruct (run_loads_counter P rqs process_start) as (evs & Htr & Hid & Hids);
    [cbn; lia |].
  rewrite Htr. cbn [trace process_start app]. cbn in Hid, Hids. done.
Qed.

(** C3, as stated, fails: a call that passes a hook parameter and names no
    hook returns the null pointer after the two namespace steps and leaves
    the counter at 0, so the next call observes the same counter value. *)
Lemma rejected_call_keeps_counter :
  load_result good_platform orphan_param_request process_start = nullptr
  ∧ load_events good_platform orphan_param_request process_start =
      [EvCreateNamespace (Some "/vendor/lib64/libtarget.so")
         (Some "/data/hooks") None 2 None 600 8192 700;
       EvLinkNamespacesAllLibs 700 600 true]
  ∧ TargetId process_start = 0
  ∧ TargetId (load_state good_platform orphan_param_request process_start)
    = 0.
Proof. repeat split. Qed.

(** C3, as the code has it.  The counter starts at zero.  A call
    increments it once, modulo 2^16, when it derives an identity, whatever
    the patcher and the final load then do; a call that fails before
    (hook step or destination) returns the null pointer and leaves it as
    it was; the counter is incremented exactly when the call obtains a
    destination descriptor.  No call resets it: after any run of calls
    from process start
    it is the number of identities derived, modulo 2^16; so, while fewer
    than 2^16 identities are derived, a later call observes the value that
    an earlier call observed plus the number of identities derived in
    between. *)
Theorem counter_counts_derivations (P : Platform) :
  TargetId process_start = 0
  ∧ (∀ (rq : LoadRequest) (s : State),
       (identities (load_events P rq s) = []
        ∧ TargetId (load_state P rq s) = TargetId s
        ∧ load_result P rq s = nullptr)
       ∨ (∃ id : string,
            identities (load_events P rq s) = [id]
            ∧ TargetId (load_state P rq s) = uint16_wrap (TargetId s + 1)))
  ∧ (∀ (rq : LoadRequest) (s : State),
       TargetId (load_state P rq s) = uint16_wrap (TargetId s + 1) ↔
       existsb descriptor_obtained (load_events P rq s) = true)
  ∧ (∀ rqs : list LoadRequest,
       TargetId (loads_state P rqs) =
         uint16_wrap
           (Z.of_nat (length (identities (trace (loads_state P rqs))))))
  ∧ (∀ rqs1 rqs2 : list LoadRequest,
       Z.of_nat (length (identities (trace (loads_state P (rqs1 ++ rqs2)))))
       < 2 ^ 16 →
       TargetId (loads_state P (rqs1 ++ rqs2)) =
         TargetId (loads_state P rqs1)
         + Z.of_nat
             (length
                (identities
                   (new_events (loads_state P rqs1)
                      (loads_state P (rqs1 ++ rqs2)))))).
Proof.
  split; [reflexivity |]. split; [| split; [| split]].
  - intros rq s. destruct (load_step P rq s) as (evs & Htr & Hcase).
    unfold load_events. rewrite (new_events_app _ _ _ Htr).
    destruct Hcase as [? | [? ?]]; [by left | right; eauto].
  - intros rq s. symmetry. apply load_counter_iff_descriptor.
  - intros rqs. apply loads_state_counter.
  - intros rqs1 rqs2 Hlt.
    destruct (loads_state_counter P (rqs1 ++ rqs2)) as [H2 _].
    destruct (loads_state_counter P rqs1) as [H1 _].
    rewrite H2, H1. clear H1 H2.
    unfold loads_state in *. rewrite run_loads_app in *.
    set (s1 := (run_loads P rqs1 process_start).2) in *.
    destruct (run_loads_counter P rqs2 s1) as (evs & Htr & _).
    { destruct (loads_state_counter P rqs1) as [H1 _].
      unfold loads_state in H1. fold s1 in H1. rewrite H1.
      apply uint16_wrap_range. }
    rewrite (new_events_app _ _ _ Htr). rewrite Htr in *.
    unfold identities in *. rewrite omap_app, length_app in *.
    rewrite !uint16_wrap_small; lia.
Qed.

(** Three calls, the second of which is rejected at the hook step. *)
Lemma counter_counts_derivations_witness :
  Z.of_nat (length (identities (trace (loads_state good_platform
              ([sample_request] ++ [orphan_param_request; sample_request])))))
  < 2 ^ 16
  ∧ TargetId (loads_state good_platform
               ([sample_request] ++ [orphan_param_request; sample_request]))
    = TargetId (loads_state good_platform [sample_request])
      + Z.of_nat
          (length
             (identities
                (new_events (loads_state good_platform [sample_request])
                   (loads_state good_platform
                      ([sample_request]
                       ++ [orphan_param_request; sample_request]))))).
Proof.
  split; [reflexivity |].
  apply (counter_counts_derivations good_platform). reflexivity.
Defined.

(** C1, as stated, fails: in 1001 serialized calls that all derive an
    identity, the first two identities are both ["00"], and the identity
    derived after 1000 calls is ["10"], not ["000"]. *)
Lemma identities_collide_and_do_not_wrap :
  length (identities (trace (loads_state good_platform
                               (replicate 1001 sample_request)))) = 1001%nat
  ∧ identities (trace (loads_state good_platform
                         (replicate 1001 sample_request))) !! 0%nat
    = Some "00"
  ∧ identities (trace (loads_state good_platform
                         (replicate 1001 sample_request))) !! 1%nat
    = Some "00"
  ∧ identities (trace (loads_state good_platform
                         (replicate 1001 sample_request))) !! 1000%nat
    = Some "10".
Proof. vm_compute. repeat split. Qed.

(** C1, as the code has it.  In any run of serialized calls from process
    start, the k-th identity derived (counting from 0) is cut from the
    front of the [%03u] rendering of the counter value [k mod 2^16].
    These renderings are pairwise distinct for the first 2^16 derivations,
    and the rendering is ["000"] again only when k is a multiple of 2^16:
    the counter is 16 bits wide and does not wrap at 1000, where the
    rendering is ["1000"]. *)
Theorem identity_renderings_distinct (P : Platform)
    (rqs : list LoadRequest) :
  (∀ (k : nat) (id : string),
     identities (trace (loads_state P rqs)) !! k = Some id →
     String.prefix id (fmt_03u (uint16_wrap (Z.of_nat k))) = true)
  ∧ (∀ j k : nat,
       Z.of_nat j < 2 ^ 16 → Z.of_nat k < 2 ^ 16 →
       fmt_03u (uint16_wrap (Z.of_nat j)) = fmt_03u (uint16_wrap (Z.of_nat k)) →
       j = k)
  ∧ (∀ k : nat,
       fmt_03u (uint16_wrap (Z.of_nat k)) = "000" ↔ Z.of_nat k mod 2 ^ 16 = 0)
  ∧ fmt_03u (uint16_wrap 1000) = "1000".
Proof.
  split; [| split; [| split]].
  - intros k id Hk.
    destruct (loads_state_counter P rqs) as [_ Hids].
    rewrite (Hids k id Hk). apply snprintf_prefix.
  - intros j k Hj Hk Heq.
    rewrite !uint16_wrap_small in Heq by lia.
    apply fmt_03u_inj in Heq; lia.
  - intros k. change "000" with (fmt_03u 0). split.
    + intros Heq. apply fmt_03u_inj in Heq; [done | | done].
      apply uint16_wrap_range.
    + intros Hk. unfold uint16_wrap. by rewrite Hk.
  - reflexivity.
Qed.

(** The second identity of two calls, and the renderings of 0 and 1. *)
Lemma identity_renderings_distinct_witness :
  identities (trace (loads_state good_platform
                       [sample_request; sample_request])) !! 1%nat
  = Some "00"
  ∧ String.prefix "00" (fmt_03u (uint16_wrap (Z.of_nat 1))) = true
  ∧ (fmt_03u (uint16_wrap (Z.of_nat 0)) = fmt_03u (uint16_wrap (Z.of_nat 1)) →
     0%nat = 1%nat).
Proof.
  split; [reflexivity |].
  destruct (identity_renderings_distinct good_platform
              [sample_request; sample_request]) as (Hcut & Hinj & _).
  split; [apply (Hcut 1%nat); reflexivity |].
  apply Hinj; reflexivity.
Defined.

(** ** Loader symbol resolver *)

(** The signature is the top 6 bits of the 32-bit word, the offset its low
    26 bits in two's complement. *)
Lemma BranchLinked_sig_bits (raw : Z) :
  BranchLinked_sig raw = (raw / 2 ^ 26) mod 2 ^ 6.
Proof.
  unfold BranchLinked_sig.
  by rewrite Z.land_ones, Z.shiftr_div_pow2 by lia.
Qed.

Lemma BranchLinked_offset_signed (raw : Z) :
  BranchLinked_offset raw =
    raw mod 2 ^ 26 - (if Z.testbit raw 25 then 2 ^ 26 else 0).
Proof.
  unfold BranchLinked_offset. cbv zeta.
  rewrite Z.land_spec, Z.ones_spec_low, andb_true_r by lia.
  rewrite Z.land_ones by lia.
  destruct (Z.testbit raw 25); lia.
Qed.

Lemma BranchLinked_offset_range (raw : Z) :
  - 2 ^ 25 ≤ BranchLinked_offset raw < 2 ^ 25.
Proof.
  rewrite BranchLinked_offset_signed.
  pose proof (Z.mod_pos_bound raw (2 ^ 25) ltac:(lia)) as Hlow.
  assert (raw mod 2 ^ 26 = raw mod 2 ^ 25 + 2 ^ 25 * ((raw / 2 ^ 25) mod 2))
    as Hsplit.
  { change (2 ^ 26) with (2 ^ 25 * 2). apply Z.rem_mul_r; lia. }
  destruct (Z.testbit raw 25) eqn:Hbit.
  - apply Z.testbit_true in Hbit; lia.
  - apply Z.testbit_false in Hbit; lia.
Qed.

Lemma walk_finds_first (P : Platform) (k : nat) :
  ∀ (fuel : nat) (a : ptr),
    (∀ j : nat, (j < k)%nat → Verify (text_word P (a + 4 * Z.of_nat j)) = false) →
    Verify (text_word P (a + 4 * Z.of_nat k)) = true →
    (k < fuel)%nat →
    walk P fuel a = Some (a + 4 * Z.of_nat k).
Proof.
  induction k as [|k IH]; intros [|fuel] a Hbefore Hat Hfuel; try lia.
  - cbn [walk]. replace (a + 4 * Z.of_nat 0) with a in * by lia.
    by rewrite Hat.
  - cbn [walk]. specialize (Hbefore 0%nat ltac:(lia)) as H0.
    replace (a + 4 * Z.of_nat 0) with a in H0 by lia. rewrite H0.
    rewrite (IH fuel (a + 4)); [f_equal; lia | | | lia].
    + intros j Hj. specialize (Hbefore (S j) ltac:(lia)).
      by replace (a + 4 + 4 * Z.of_nat j) with (a + 4 * Z.of_nat (S j)) by lia.
    + by replace (a + 4 + 4 * Z.of_nat k) with (a + 4 * Z.of_nat (S k)) by lia.
Qed.

Lemma find_loader_dlopen_first (P : Platform) (k fuel : nat) :
  (∀ j : nat, (j < k)%nat →
     (text_word P (dlopen_addr P + 4 * Z.of_nat j) / 2 ^ 26) mod 2 ^ 6 ≠ 37) →
  (text_word P (dlopen_addr P + 4 * Z.of_nat k) / 2 ^ 26) mod 2 ^ 6 = 37 →
  (k < fuel)%nat →
  walk P fuel (dlopen_addr P) = Some (dlopen_addr P + 4 * Z.of_nat k)
  ∧ find_loader_dlopen P fuel =
      Some (dlopen_addr P + 4 * Z.of_nat k
            + 4 * BranchLinked_offset
                    (text_word P (dlopen_addr P + 4 * Z.of_nat k))).
Proof.
  intros Hbefore Hat Hfuel.
  assert (walk P fuel (dlopen_addr P) = Some (dlopen_addr P + 4 * Z.of_nat k))
    as Hwalk.
  { apply walk_finds_first; [| | done].
    - intros j Hj. unfold Verify. rewrite BranchLinked_sig_bits.
      apply Z.eqb_neq. by apply Hbefore.
    - unfold Verify. rewrite BranchLinked_sig_bits. by apply Z.eqb_eq. }
  split; [done |].
  unfold find_loader_dlopen. by rewrite Hwalk.
Qed.

(** C8.  When the first word at or after the entry of [dlopen] whose top
    6 bits are the branch-with-link signature 100101 is the k-th, the walk
    (given fuel for more than k words) stops at that word, and the address
    found is the address of that word plus 4 times its low 26 bits read as
    a signed number. *)
Theorem loader_dlopen_found_by_walk (P : Platform) (k fuel : nat) :
  (∀ j : nat, (j < k)%nat →
     (text_word P (dlopen_addr P + 4 * Z.of_nat j) / 2 ^ 26) mod 2 ^ 6 ≠ 37) →
  (text_word P (dlopen_addr P + 4 * Z.of_nat k) / 2 ^ 26) mod 2 ^ 6 = 37 →
  (k < fuel)%nat →
  walk P fuel (dlopen_addr P) = Some (dlopen_addr P + 4 * Z.of_nat k)
  ∧ find_loader_dlopen P fuel =
      Some (dlopen_addr P + 4 * Z.of_nat k
            + 4 * (text_word P (dlopen_addr P + 4 * Z.of_nat k) mod 2 ^ 26
                   - (if Z.testbit
                           (text_word P (dlopen_addr P + 4 * Z.of_nat k)) 25
                      then 2 ^ 26 else 0))).
Proof.
  intros Hbefore Hat Hfuel.
  rewrite <- BranchLinked_offset_signed.
  by apply find_loader_dlopen_first.
Qed.

(** The sample trampoline: the branch is its fourth word, 16 words before
    the target. *)
Lemma loader_dlopen_found_by_walk_witness :
  walk good_platform 8 (dlopen_addr good_platform) = Some 4108
  ∧ find_loader_dlopen good_platform 8 = Some 4172.
Proof.
  apply (loader_dlopen_found_by_walk good_platform 3 8).
  - intros j Hj.
    assert (j = 0 ∨ j = 1 ∨ j = 2)%nat as [-> | [-> | ->]] by lia;
      vm_compute; discriminate.
  - reflexivity.
  - lia.
Defined.

(** No exported function writes the readiness flag. *)
Lemma run_call_lib_loaded (P : Platform) (c : ApiCall) (s : State) :
  lib_loaded (run_call P c s).2 = lib_loaded s.
Proof.
  pattern ((run_call P c s).2).
  match goal with
  | |- ?Q _ => change (wp (run_call P c) (λ _ s', Q s') s)
  end.
  destruct c; unfold run_call; wp_run; simpl_state; done.
Qed.

Lemma run_calls_lib_loaded (P : Platform) (cs : list ApiCall) (s : State) :
  lib_loaded (run_calls P cs s).2 = lib_loaded s.
Proof.
  revert s. induction cs as [|c cs IH]; intros s; [done |].
  cbn [run_calls]. unfold bind, ret.
  pose proof (run_call_lib_loaded P c s) as Hc.
  destruct (run_call P c s) as [r s1]. cbn [snd] in *.
  specialize (IH s1). destruct (run_calls P cs s1) as [rs s2].
  cbn [snd] in *. congruence.
Qed.

(** A resolution answers what the platform answers to it. *)
Section WPAnswers.
Variable P : Platform.

Lemma wp_call_loader_dlopen_answer t f fl ca (Q : ptr → State → Prop) s :
  (∀ r, r = plat_loader_dlopen P (trace s) t f fl ca →
        Q r (log (EvLoaderDlopen t f fl ca r) s)) →
  wp (call_loader_dlopen P t f fl ca) Q s.
Proof. intros H. by apply H. Qed.

Lemma wp_dlopen_answer f fl (Q : ptr → State → Prop) s :
  (∀ r, r = plat_dlopen P (trace s) f fl → Q r (log (EvDlopen f fl r) s)) →
  wp (dlopen P f fl) Q s.
Proof. intros H. by apply H. Qed.

Lemma wp_dlsym_answer h sym (Q : ptr → State → Prop) s :
  (∀ r, r = plat_dlsym P (trace s) h sym → Q r (log (EvDlsym h sym r) s)) →
  wp (dlsym P h sym) Q s.
Proof. intros H. by apply H. Qed.

End WPAnswers.

(** Read the globals of a state built by the resolver. *)
Ltac simpl_resolver :=
  cbn [process_start trace log set_memory set_PathBuf set_TargetId
       set_lib_loaded set_loader_android_create_namespace
       set_android_get_exported_namespace
       set_android_link_namespaces_all_libs set_android_link_namespaces
       set_libdl_android_dlopen_ext
       memory TargetId PathBuf lib_loaded loader_android_create_namespace
       android_get_exported_namespace android_link_namespaces_all_libs
       android_link_namespaces libdl_android_dlopen_ext fst snd app].

(** Run the resolver, keeping for each resolution the equation between its
    answer and the platform's. *)
Ltac resolve_step :=
  lazymatch goal with
  | |- wp (call_loader_dlopen _ _ _ _ _) _ _ =>
      apply wp_call_loader_dlopen_answer; intros ? ?
  | |- wp (dlopen _ _ _) _ _ => apply wp_dlopen_answer; intros ? ?
  | |- wp (dlsym _ _ _) _ _ => apply wp_dlsym_answer; intros ? ?
  | |- _ => wp_step
  end;
  cbn [process_start trace log set_memory set_PathBuf set_TargetId
       set_lib_loaded set_loader_android_create_namespace
       set_android_get_exported_namespace
       set_android_link_namespaces_all_libs set_android_link_namespaces
       set_libdl_android_dlopen_ext app] in *.

(** The constructor makes the eight resolutions in order up to the first
    that the platform fails; it sets the flag exactly when the platform
    fails none; and every entry point holds the answer of the lookup of
    its symbol, null when the lookup was not reached. *)
Lemma resolve_from_trace (P : Platform) (target : ptr) :
  trace (resolve_from P target process_start).2
  = upto_first_failure (resolver_events P target)
  ∧ (lib_loaded (resolve_from P target process_start).2 = true ↔
     forallb resolution_succeeded (resolver_events P target) = true)
  ∧ android_link_namespaces_all_libs (resolve_from P target process_start).2
    = lookup_answer "__loader_android_link_namespaces_all_libs"
        (trace (resolve_from P target process_start).2)
  ∧ android_link_namespaces (resolve_from P target process_start).2
    = lookup_answer "__loader_android_link_namespaces"
        (trace (resolve_from P target process_start).2)
  ∧ loader_android_create_namespace (resolve_from P target process_start).2
    = lookup_answer "__loader_android_create_namespace"
        (trace (resolve_from P target process_start).2)
  ∧ android_get_exported_namespace (resolve_from P target process_start).2
    = lookup_answer "__loader_android_get_exported_namespace"
        (trace (resolve_from P target process_start).2)
  ∧ libdl_android_dlopen_ext (resolve_from P target process_start).2
    = lookup_answer "android_dlopen_ext"
        (trace (resolve_from P target process_start).2).
Proof.
  set (a1 := plat_loader_dlopen P [] target "ld-android.so" RTLD_LAZY
               (dlopen_addr P)).
  set (e1 := EvLoaderDlopen target "ld-android.so" RTLD_LAZY (dlopen_addr P)
               a1).
  set (a2 := plat_dlsym P [e1] a1 "__loader_android_link_namespaces_all_libs").
  set (e2 := EvDlsym a1 "__loader_android_link_namespaces_all_libs" a2).
  set (a3 := plat_dlsym P [e1; e2] a1 "__loader_android_link_namespaces").
  set (e3 := EvDlsym a1 "__loader_android_link_namespaces" a3).
  set (a4 := plat_loader_dlopen P [e1; e2; e3] target "libdl_android.so"
               RTLD_LAZY (dlopen_addr P)).
  set (e4 := EvLoaderDlopen target "libdl_android.so" RTLD_LAZY
               (dlopen_addr P) a4).
  set (a5 := plat_dlsym P [e1; e2; e3; e4] a4
               "__loader_android_create_namespace").
  set (e5 := EvDlsym a4 "__loader_android_create_namespace" a5).
  set (a6 := plat_dlsym P [e1; e2; e3; e4; e5] a4
               "__loader_android_get_exported_namespace").
  set (e6 := EvDlsym a4 "__loader_android_get_exported_namespace" a6).
  set (a7 := plat_dlopen P [e1; e2; e3; e4; e5; e6] "libdl.so" RTLD_LAZY).
  set (e7 := EvDlopen "libdl.so" RTLD_LAZY a7).
  set (a8 := plat_dlsym P [e1; e2; e3; e4; e5; e6; e7] a7 "android_dlopen_ext").
  set (e8 := EvDlsym a7 "android_dlopen_ext" a8).
  assert (resolver_events P target = [e1; e2; e3; e4; e5; e6; e7; e8])
    as -> by reflexivity.
  pattern ((resolve_from P target process_start).2).
  match goal with
  | |- ?Q _ => change (wp (resolve_from P target) (λ _ s', Q s') process_start)
  end.
  unfold resolve_from; repeat resolve_step; simpl_resolver;
    repeat match goal with
      | H : ?r = _ |- _ =>
          is_var r;
          first [ change (r = a1) in H | change (r = a2) in H
                | change (r = a3) in H | change (r = a4) in H
                | change (r = a5) in H | change (r = a6) in H
                | change (r = a7) in H | change (r = a8) in H ];
          subst r
      end;
    subst e1 e2 e3 e4 e5 e6 e7 e8;
    cbn [upto_first_failure forallb resolution_succeeded]; use_tests;
    cbn [negb andb];
    (split; [reflexivity |]); (split; [done |]); repeat split.
Qed.

Lemma walk_without_branch (fuel : nat) (a : ptr) :
  walk no_branch_platform fuel a = None.
Proof. revert a. induction fuel as [|fuel IH]; intros a; [done |]. apply IH. Qed.

Lemma upto_first_failure_all (evs : list Event) :
  forallb resolution_succeeded evs = true → upto_first_failure evs = evs.
Proof.
  induction evs as [|e evs IH]; [done |].
  cbn [forallb upto_first_failure]. intros [He Hrest]%andb_true_iff.
  rewrite He. f_equal. by apply IH.
Qed.

Lemma upto_first_failure_last (evs : list Event) :
  forallb resolution_succeeded evs = false →
  ∃ e : Event,
    last (upto_first_failure evs) = Some e ∧ resolution_succeeded e = false.
Proof.
  induction evs as [|e evs IH]; [done |].
  cbn [forallb upto_first_failure].
  destruct (resolution_succeeded e) eqn:He.
  - cbn [andb]. intros Hrest. destruct (IH Hrest) as (e' & Hlast & He').
    exists e'. split; [| done].
    destruct (upto_first_failure evs) eqn:Hup; [done |].
    by rewrite last_cons, Hlast.
  - intros _. exists e. by split.
Qed.

(** C5, as stated, fails: on a platform whose code holds no
    branch-with-link word, every one of the eight resolutions would
    succeed, yet the constructor does not return within any number of
    words walked, so the flag is never set and stays false as it was at
    process start. *)
Lemma constructor_needs_a_branch :
  (∀ fuel : nat,
     resolve_linker_symbols no_branch_platform fuel process_start = None)
  ∧ (∀ target : ptr,
       forallb resolution_succeeded
         (resolver_events no_branch_platform target) = true)
  ∧ lib_loaded process_start = false.
Proof.
  split; [| split; [intros target; reflexivity | reflexivity]].
  intros fuel. unfold resolve_linker_symbols, find_loader_dlopen.
  by rewrite walk_without_branch.
Qed.

(** C5, as the code has it.  When the walk finds a branch-with-link word,
    the constructor returns.  It has then put to the platform the eight
    resolutions of the source, in order, up to and with the first that the
    platform failed, and the readiness flag it leaves is true exactly when
    the platform failed none of the eight; a failure ends the constructor
    at once with the flag false.  Whatever calls of the exported functions
    follow, the flag keeps its value and the readiness query returns
    it. *)
Theorem readiness_iff_all_resolved (P : Platform) (k fuel : nat) :
  (∀ j : nat, (j < k)%nat →
     (text_word P (dlopen_addr P + 4 * Z.of_nat j) / 2 ^ 26) mod 2 ^ 6 ≠ 37) →
  (text_word P (dlopen_addr P + 4 * Z.of_nat k) / 2 ^ 26) mod 2 ^ 6 = 37 →
  (k < fuel)%nat →
  ∃ (target : ptr) (st : State),
    find_loader_dlopen P fuel = Some target
    ∧ resolve_linker_symbols P fuel process_start = Some st
    ∧ trace st = upto_first_failure (resolver_events P target)
    ∧ (lib_loaded st = true ↔
       forallb resolution_succeeded (resolver_events P target) = true)
    ∧ (lib_loaded st = true → trace st = resolver_events P target)
    ∧ (lib_loaded st = false →
       ∃ e : Event, last (trace st) = Some e ∧ resolution_succeeded e = false)
    ∧ ∀ cs : list ApiCall,
        lib_loaded (run_calls P cs st).2 = lib_loaded st
        ∧ (linkernsbypass_load_status (run_calls P cs st).2).1
          = lib_loaded st.
Proof.
  intros Hbefore Hat Hfuel.
  destruct (find_loader_dlopen_first P k fuel Hbefore Hat Hfuel)
    as [_ Hfind].
  unfold resolve_linker_symbols. rewrite Hfind.
  eexists _, _. split; [reflexivity |]. split; [reflexivity |].
  match goal with
  | |- context [resolve_from P ?t process_start] =>
      destruct (resolve_from_trace P t) as (Htr & Hflag & _)
  end.
  split; [exact Htr |]. split; [exact Hflag |].
  split; [| split].
  - intros Hready. rewrite Htr. apply upto_first_failure_all.
    by apply Hflag.
  - intros Hnot. rewrite Htr. apply upto_first_failure_last.
    apply not_true_iff_false. intros Hall. apply Hflag in Hall. congruence.
  - intros cs. split; apply run_calls_lib_loaded.
Qed.

(** The constructor on the sample platform. *)
Lemma readiness_iff_all_resolved_witness :
  ∃ (target : ptr) (st : State),
    find_loader_dlopen good_platform 8 = Some target
    ∧ resolve_linker_symbols good_platform 8 process_start = Some st
    ∧ trace st = upto_first_failure (resolver_events good_platform target)
    ∧ (lib_loaded st = true ↔
       forallb resolution_succeeded (resolver_events good_platform target)
       = true)
    ∧ (lib_loaded st = true → trace st = resolver_events good_platform target)
    ∧ (lib_loaded st = false →
       ∃ e : Event, last (trace st) = Some e ∧ resolution_succeeded e = false)
    ∧ ∀ cs : list ApiCall,
        lib_loaded (run_calls good_platform cs st).2 = lib_loaded st
        ∧ (linkernsbypass_load_status (run_calls good_platform cs st).2).1
          = lib_loaded st.
Proof.
  apply (readiness_iff_all_resolved good_platform 3 8).
  - intros j Hj.
    assert (j = 0 ∨ j = 1 ∨ j = 2)%nat as [-> | [-> | ->]] by lia;
      vm_compute; discriminate.
  - reflexivity.
  - lia.
Defined.

(** * Further properties *)

(** ** Further properties of the hook application *)

Ltac hook_wp P name ns param s :=
  unfold hook_events, hook_result, hook_state;
  pattern ((linkernsbypass_namespace_apply_hook P name ns param s).1),
          ((linkernsbypass_namespace_apply_hook P name ns param s).2);
  match goal with
  | |- ?Q _ _ =>
      change (wp (linkernsbypass_namespace_apply_hook P name ns param) Q s)
  end;
  wp_run; simpl_events.

(** X1.  When the hook library does not load, the application fails at
    once: the load is its only platform call (the parameter slot is not
    looked up) and nothing is stored. *)
Theorem hook_load_failure_stops (P : Platform) (name : cstr)
    (ns param : ptr) (s : State) :
  head (hook_events P name ns param s) =
    Some (EvDlopenExt name RTLD_GLOBAL (hook_extinfo ns) nullptr) →
  hook_result P name ns param s = false
  ∧ hook_events P name ns param s =
      [EvDlopenExt name RTLD_GLOBAL (hook_extinfo ns) nullptr]
  ∧ memory (hook_state P name ns param s) = memory s.
Proof.
  hook_wp P name ns param s; cbn [head]; intros Hev; simplify_eq;
    norm_bools; done.
Qed.

(** A platform that loads no hook library. *)
Lemma hook_load_failure_stops_witness :
  hook_result no_namespace_platform (Some "libhook.so") 700 4242
    process_start = false
  ∧ hook_events no_namespace_platform (Some "libhook.so") 700 4242
      process_start =
      [EvDlopenExt (Some "libhook.so") RTLD_GLOBAL (hook_extinfo 700) nullptr]
  ∧ memory (hook_state no_namespace_platform (Some "libhook.so") 700 4242
              process_start) = memory process_start.
Proof.
  apply (hook_load_failure_stops no_namespace_platform (Some "libhook.so")
           700 4242 process_start). reflexivity.
Defined.

(** X2.  A hook application that succeeds has loaded the library and
    looked up the slot, and slot and parameter are both absent (nothing is
    stored) or both present (the parameter is stored in the slot, and in
    no other cell). *)
Theorem hook_success_means (P : Platform) (name : cstr) (ns param : ptr)
    (s : State) :
  hook_result P name ns param s = true →
  ∃ hookLib slot : ptr,
    hookLib ≠ nullptr
    ∧ hook_events P name ns param s =
        [EvDlopenExt name RTLD_GLOBAL (hook_extinfo ns) hookLib;
         EvDlsym hookLib "hook_param" slot]
    ∧ ((slot = nullptr ∧ param = nullptr
        ∧ memory (hook_state P name ns param s) = memory s)
       ∨ (slot ≠ nullptr ∧ param ≠ nullptr
          ∧ memory (hook_state P name ns param s)
            = <[slot := param]> (memory s))).
Proof.
  hook_wp P name ns param s; intros Hr; try discriminate;
    norm_bools; eexists _, _;
    (split; [| split; [reflexivity | first [by left | by right]]]); done.
Qed.

Lemma hook_success_means_witness :
  ∃ hookLib slot : ptr,
    hookLib ≠ nullptr
    ∧ hook_events good_platform (Some "libhook.so") 700 4242 process_start =
        [EvDlopenExt (Some "libhook.so") RTLD_GLOBAL (hook_extinfo 700) hookLib;
         EvDlsym hookLib "hook_param" slot]
    ∧ ((slot = nullptr ∧ 4242 = nullptr
        ∧ memory (hook_state good_platform (Some "libhook.so") 700 4242
                    process_start) = memory process_start)
       ∨ (slot ≠ nullptr ∧ 4242 ≠ nullptr
          ∧ memory (hook_state good_platform (Some "libhook.so") 700 4242
                      process_start)
            = <[slot := 4242]> (memory process_start))).
Proof.
  apply (hook_success_means good_platform (Some "libhook.so") 700 4242
           process_start). reflexivity.
Defined.

(** X3.  A hook application that fails stores nothing, and no hook
    application touches the counter, the scratch path buffer or the
    readiness flag. *)
Theorem hook_failure_writes_nothing (P : Platform) (name : cstr)
    (ns param : ptr) (s : State) :
  (hook_result P name ns param s = false →
   memory (hook_state P name ns param s) = memory s)
  ∧ TargetId (hook_state P name ns param s) = TargetId s
  ∧ PathBuf (hook_state P name ns param s) = PathBuf s
  ∧ lib_loaded (hook_state P name ns param s) = lib_loaded s.
Proof.
  hook_wp P name ns param s; repeat split; done.
Qed.

Lemma hook_failure_writes_nothing_witness :
  memory (hook_state no_slot_platform (Some "libhook.so") 700 4242
            process_start) = memory process_start.
Proof.
  apply (hook_failure_writes_nothing no_slot_platform (Some "libhook.so")
           700 4242 process_start). reflexivity.
Defined.
(** ** Further properties of one call of the isolated loader *)

(** X4.  A call that passes a hook parameter and names no hook is
    rejected after the namespace steps: it returns the null pointer, all
    it has done is create and link namespaces, and it leaves the counter,
    the memory and the scratch path buffer as they were. *)
Theorem orphan_parameter_rejected (P : Platform) (rq : LoadRequest)
    (s : State) :
  hookLibName rq = None →
  hookParam rq ≠ nullptr →
  load_result P rq s = nullptr
  ∧ forallb (λ e, is_namespace_creation e || is_namespace_link e)
      (load_events P rq s) = true
  ∧ TargetId (load_state P rq s) = TargetId s
  ∧ memory (load_state P rq s) = memory s
  ∧ PathBuf (load_state P rq s) = PathBuf s.
Proof.
  intros Hname Hparam. load_wp P rq s; try congruence; norm_bools;
    try congruence; repeat split.
Qed.

Lemma orphan_parameter_rejected_witness :
  load_result good_platform orphan_param_request process_start = nullptr
  ∧ forallb (λ e, is_namespace_creation e || is_namespace_link e)
      (load_events good_platform orphan_param_request process_start) = true
  ∧ TargetId (load_state good_platform orphan_param_request process_start)
    = TargetId process_start
  ∧ memory (load_state good_platform orphan_param_request process_start)
    = memory process_start
  ∧ PathBuf (load_state good_platform orphan_param_request process_start)
    = PathBuf process_start.
Proof.
  apply (orphan_parameter_rejected good_platform orphan_param_request
           process_start); [reflexivity | discriminate].
Defined.

(** X5.  In a call that names a hook, no destination is requested exactly
    when the hook library did not load or the answer of the slot lookup
    does not fit the parameter; the call then returns the null pointer and
    leaves the counter and the memory as they were. *)
Theorem hook_gate (P : Platform) (rq : LoadRequest) (s : State) :
  is_Some (hookLibName rq) →
  (existsb is_destination (load_events P rq s) = false ↔
   existsb failed_hook_load (load_events P rq s) = true
   ∨ existsb (slot_mismatch (hookParam rq)) (load_events P rq s) = true)
  ∧ (existsb is_destination (load_events P rq s) = false →
     load_result P rq s = nullptr
     ∧ TargetId (load_state P rq s) = TargetId s
     ∧ memory (load_state P rq s) = memory s).
Proof.
  intros [n Hname]. load_wp P rq s; try congruence;
    cbn [existsb is_destination failed_hook_load slot_mismatch flags orb andb];
    rewrite ?String.eqb_refl; use_tests;
    rewrite ?andb_false_r, ?orb_false_r; cbn [negb orb andb xorb];
    repeat match goal with
      | |- context [is_null ?x] => destruct (is_null x) eqn:?
      end;
    cbn [negb orb andb xorb] in *; try discriminate;
    (split; [split; intros; first [done | intuition discriminate] | done]).
Qed.

Lemma hook_gate_witness :
  existsb is_destination
    (load_events no_slot_platform memory_request process_start) = false
  ∧ load_result no_slot_platform memory_request process_start = nullptr.
Proof.
  destruct (hook_gate no_slot_platform memory_request process_start)
    as [Hiff Hstop]; [by eexists |].
  split; [apply Hiff; right; reflexivity |].
  apply Hstop. apply Hiff. right. reflexivity.
Defined.

(** X6.  The namespace steps.  A call creates one namespace, or two when
    the link to the default namespace is asked for.  With that link, the
    second creation is the copy of the default namespace, made with no
    search path and no parent on behalf of [dlopen], and the new namespace
    is linked to it before it is linked to the parent; without it, the
    link to the parent follows the creation at once. *)
Theorem namespace_steps (P : Platform) (rq : LoadRequest) (s : State) :
  length (List.filter is_namespace_creation (load_events P rq s))
  = (if linkToDefault rq then 2 else 1)%nat
  ∧ (linkToDefault rq = true →
     ∃ (hookNs defaultNs : ptr) (l1 l2 : bool),
       take 4 (load_events P rq s) =
         [EvCreateNamespace (libPath rq) (hookLibDir rq) None
            ANDROID_NAMESPACE_TYPE_SHARED None (parentNs rq)
            (hooked_return_addr P) hookNs;
          EvCreateNamespace (Some "default_copy") None None
            ANDROID_NAMESPACE_TYPE_SHARED None nullptr (dlopen_addr P)
            defaultNs;
          EvLinkNamespacesAllLibs hookNs defaultNs l1;
          EvLinkNamespacesAllLibs hookNs (parentNs rq) l2])
  ∧ (linkToDefault rq = false →
     ∃ (hookNs : ptr) (l : bool),
       take 2 (load_events P rq s) =
         [EvCreateNamespace (libPath rq) (hookLibDir rq) None
            ANDROID_NAMESPACE_TYPE_SHARED None (parentNs rq)
            (hooked_return_addr P) hookNs;
          EvLinkNamespacesAllLibs hookNs (parentNs rq) l]).
Proof.
  load_wp P rq s; (split; [reflexivity |]);
    (split; intros; first [discriminate | eexists _, _, _, _; reflexivity
                          | eexists _, _; reflexivity]).
Qed.

Lemma namespace_steps_witness :
  ∃ (hookNs defaultNs : ptr) (l1 l2 : bool),
    take 4 (load_events good_platform memory_request process_start) =
      [EvCreateNamespace (libPath memory_request) (hookLibDir memory_request)
         None ANDROID_NAMESPACE_TYPE_SHARED None (parentNs memory_request)
         (hooked_return_addr good_platform) hookNs;
       EvCreateNamespace (Some "default_copy") None None
         ANDROID_NAMESPACE_TYPE_SHARED None nullptr
         (dlopen_addr good_platform) defaultNs;
       EvLinkNamespacesAllLibs hookNs defaultNs l1;
       EvLinkNamespacesAllLibs hookNs (parentNs memory_request) l2].
Proof.
  apply (namespace_steps good_platform memory_request process_start).
  reflexivity.
Defined.

(** X7.  A call that returns a handle has passed every gate.  Its last
    three platform calls are the request of the destination, which
    yielded a descriptor [fd] other than -1; the patch of the library into
    [fd] under the identity cut from the counter, which succeeded; and the
    load of [/proc/self/fd/fd] with the caller's mode, from descriptor
    [fd], into the namespace created in the first step, whose answer is
    the handle returned.  The counter is incremented and the scratch path
    buffer holds the path of the final load. *)
Theorem successful_load_path (P : Platform) (rq : LoadRequest) (s : State) :
  load_result P rq s ≠ nullptr →
  ∃ (hookNs : ptr) (dest : Event),
    created_namespace (load_events P rq s) = Some hookNs
    ∧ last_events 3 (load_events P rq s) =
        [dest;
         EvElfSonamePatch (libPath rq) (descriptor_of dest)
           (snprintf 3 (fmt_03u (TargetId s))) true;
         EvDlopenExt (Some (proc_fd_path (descriptor_of dest))) (mode rq)
           (load_extinfo (descriptor_of dest) hookNs) (load_result P rq s)]
    ∧ descriptor_obtained dest = true
    ∧ descriptor_of dest ≠ -1
    ∧ TargetId (load_state P rq s) = uint16_wrap (TargetId s + 1)
    ∧ PathBuf (load_state P rq s) = proc_fd_path (descriptor_of dest).
Proof.
  load_wp P rq s; intros Hr; try done;
    repeat match goal with
      | H : negb ?b = false |- _ => apply negb_false_iff in H; subst b
      end;
    unfold last_events; cbn [length Nat.sub drop];
    lazymatch goal with
    | |- context [?dest :: EvElfSonamePatch _ _ _ _ :: _] => eexists _, dest
    end;
    (split; [reflexivity |]); (split; [reflexivity |]);
    cbn [descriptor_obtained descriptor_of]; use_tests; norm_bools;
    repeat split; first [done | lia].
Qed.

Lemma successful_load_path_witness :
  ∃ (hookNs : ptr) (dest : Event),
    created_namespace (load_events good_platform sample_request process_start)
    = Some hookNs
    ∧ last_events 3 (load_events good_platform sample_request process_start) =
        [dest;
         EvElfSonamePatch (libPath sample_request) (descriptor_of dest)
           (snprintf 3 (fmt_03u (TargetId process_start))) true;
         EvDlopenExt (Some (proc_fd_path (descriptor_of dest)))
           (mode sample_request)
           (load_extinfo (descriptor_of dest) hookNs)
           (load_result good_platform sample_request process_start)]
    ∧ descriptor_obtained dest = true
    ∧ descriptor_of dest ≠ -1
    ∧ TargetId (load_state good_platform sample_request process_start)
      = uint16_wrap (TargetId process_start + 1)
    ∧ PathBuf (load_state good_platform sample_request process_start)
      = proc_fd_path (descriptor_of dest).
Proof.
  apply (successful_load_path good_platform sample_request process_start).
  discriminate.
Defined.

(** X8.  A call that returns a handle and was given a hook parameter has
    loaded the hook library, found its parameter slot, and left the
    parameter in the slot, which is the only cell of memory it wrote. *)
Theorem successful_load_sets_parameter (P : Platform) (rq : LoadRequest)
    (s : State) :
  load_result P rq s ≠ nullptr →
  hookParam rq ≠ nullptr →
  ∃ hookLib slot : ptr,
    hookLib ≠ nullptr ∧ slot ≠ nullptr
    ∧ EvDlopenExt (hookLibName rq) RTLD_GLOBAL
        (hook_extinfo (default nullptr (created_namespace (load_events P rq s))))
        hookLib ∈ load_events P rq s
    ∧ EvDlsym hookLib "hook_param" slot ∈ load_events P rq s
    ∧ memory (load_state P rq s) = <[slot := hookParam rq]> (memory s).
Proof.
  load_wp P rq s; intros Hr Hp; try done; norm_bools; try done;
    lazymatch goal with
    | |- context [EvDlsym ?h "hook_param" ?sl :: _] => exists h, sl
    end;
    repeat split; first [done | by repeat constructor].
Qed.

Lemma successful_load_sets_parameter_witness :
  ∃ hookLib slot : ptr,
    hookLib ≠ nullptr ∧ slot ≠ nullptr
    ∧ EvDlopenExt (hookLibName memory_request) RTLD_GLOBAL
        (hook_extinfo
           (default nullptr
              (created_namespace
                 (load_events good_platform memory_request process_start))))
        hookLib ∈ load_events good_platform memory_request process_start
    ∧ EvDlsym hookLib "hook_param" slot
      ∈ load_events good_platform memory_request process_start
    ∧ memory (load_state good_platform memory_request process_start)
      = <[slot := hookParam memory_request]> (memory process_start).
Proof.
  apply (successful_load_sets_parameter good_platform memory_request
           process_start); discriminate.
Defined.

(** X9.  A call that names no hook, or passes no hook parameter, writes
    no memory; and no call writes the readiness flag or the resolved
    entry points. *)
Theorem load_memory_frame (P : Platform) (rq : LoadRequest) (s : State) :
  (hookLibName rq = None ∨ hookParam rq = nullptr →
   memory (load_state P rq s) = memory s)
  ∧ lib_loaded (load_state P rq s) = lib_loaded s
  ∧ loader_android_create_namespace (load_state P rq s)
    = loader_android_create_namespace s
  ∧ android_get_exported_namespace (load_state P rq s)
    = android_get_exported_namespace s
  ∧ android_link_namespaces_all_libs (load_state P rq s)
    = android_link_namespaces_all_libs s
  ∧ android_link_namespaces (load_state P rq s) = android_link_namespaces s
  ∧ libdl_android_dlopen_ext (load_state P rq s) = libdl_android_dlopen_ext s.
Proof.
  load_wp P rq s; (split; [| repeat split]);
    intros Hno; norm_bools; first [done | congruence].
Qed.

Lemma load_memory_frame_witness :
  memory (load_state good_platform sample_request process_start)
  = memory process_start.
Proof.
  apply (load_memory_frame good_platform sample_request process_start).
  left. reflexivity.
Defined.

(** ** File names of the patched copies *)











(** ** Identities of counters below 1000 *)

(** The identity read back as a number is the counter without its last
    decimal digit. *)
Lemma identity_value (a : Z) :
  0 ≤ a < 1000 →
  ∃ d, NilEmpty.uint_of_string (snprintf 3 (fmt_03u a)) = Some d
       ∧ Z.of_N (N.of_uint d) = a / 10.
Proof.
  intros Ha.
  assert (forallb
            (λ v, match NilEmpty.uint_of_string (snprintf 3 (fmt_03u v)) with
                  | Some d => Z.of_N (N.of_uint d) =? v / 10
                  | None => false
                  end) (seqZ 0 1000) = true) as Hall by (vm_compute; reflexivity).
  rewrite forallb_forall in Hall.
  specialize (Hall a). rewrite <- list_elem_of_In, elem_of_seqZ in Hall.
  specialize (Hall ltac:(lia)).
  destruct (NilEmpty.uint_of_string (snprintf 3 (fmt_03u a))) as [d|];
    [| discriminate].
  exists d. split; [done |]. by apply Z.eqb_eq.
Qed.

Lemma identity_of_tens (a : Z) :
  0 ≤ a < 1000 →
  snprintf 3 (fmt_03u a) = snprintf 3 (fmt_03u (10 * (a / 10))).
Proof.
  intros Ha.
  assert (forallb
            (λ v, String.eqb (snprintf 3 (fmt_03u v))
                    (snprintf 3 (fmt_03u (10 * (v / 10)))))
            (seqZ 0 1000) = true) as Hall by (vm_compute; reflexivity).
  rewrite forallb_forall in Hall.
  specialize (Hall a). rewrite <- list_elem_of_In, elem_of_seqZ in Hall.
  apply String.eqb_eq, Hall. lia.
Qed.

(** X11.  In a run of serialized calls from process start, the identities
    derived from counter values below 1000 have two characters, and two
    of them are equal exactly when the counter values agree up to their
    last decimal digit: the j-th and the k-th identity (counting from 0)
    are equal if and only if [j / 10 = k / 10]. *)
Theorem identities_agree_on_tens (P : Platform) (rqs : list LoadRequest)
    (j k : nat) (idj idk : string) :
  identities (trace (loads_state P rqs)) !! j = Some idj →
  identities (trace (loads_state P rqs)) !! k = Some idk →
  Z.of_nat j < 1000 →
  Z.of_nat k < 1000 →
  String.length idj = 2%nat
  ∧ (idj = idk ↔ Z.of_nat j / 10 = Z.of_nat k / 10).
Proof.
  intros Hj Hk Hjr Hkr.
  destruct (loads_state_counter P rqs) as [_ Hids].
  rewrite (Hids j idj Hj), (Hids k idk Hk).
  rewrite !uint16_wrap_small by lia.
  destruct (identity_value (Z.of_nat j)) as (dj & Hdj & Hvj); [lia |].
  destruct (identity_value (Z.of_nat k)) as (dk & Hdk & Hvk); [lia |].
  split; [| split].
  - assert (forallb
              (λ v, Nat.eqb (String.length (snprintf 3 (fmt_03u v))) 2)
              (seqZ 0 1000) = true) as Hall by (vm_compute; reflexivity).
    rewrite forallb_forall in Hall. specialize (Hall (Z.of_nat j)).
    rewrite <- list_elem_of_In, elem_of_seqZ in Hall.
    apply Nat.eqb_eq, Hall. lia.
  - intros Heq. rewrite Heq in Hdj. congruence.
  - intros Heq.
    rewrite (identity_of_tens (Z.of_nat j)), (identity_of_tens (Z.of_nat k))
      by lia.
    by rewrite Heq.
Qed.

Lemma identities_agree_on_tens_witness :
  String.length "00" = 2%nat
  ∧ ("00" = "01" ↔ Z.of_nat 3 / 10 = Z.of_nat 12 / 10).
Proof.
  apply (identities_agree_on_tens good_platform
           (replicate 13 sample_request) 3 12);
    [vm_compute; reflexivity | vm_compute; reflexivity | lia | lia].
Defined.

(** ** Further properties of the resolver *)

Ltac simpl_table :=
  cbn [process_start trace log set_memory set_PathBuf set_TargetId
       set_lib_loaded set_loader_android_create_namespace
       set_android_get_exported_namespace
       set_android_link_namespaces_all_libs set_android_link_namespaces
       set_libdl_android_dlopen_ext
       memory TargetId PathBuf lib_loaded loader_android_create_namespace
       android_get_exported_namespace android_link_namespaces_all_libs
       android_link_namespaces libdl_android_dlopen_ext fst snd app].

(** State a goal about the state that [resolve_from] leaves as a weakest
    precondition and run the code. *)
Ltac resolve_wp P target :=
  pattern ((resolve_from P target process_start).2);
  match goal with
  | |- ?Q _ => change (wp (resolve_from P target) (λ _ s', Q s') process_start)
  end;
  unfold resolve_from; wp_run; simpl_table.

(** What a walk returns is the first word that verifies. *)
Lemma walk_sound (P : Platform) (fuel : nat) :
  ∀ a b : ptr,
    walk P fuel a = Some b →
    ∃ k : nat,
      (k < fuel)%nat ∧ b = a + 4 * Z.of_nat k
      ∧ Verify (text_word P b) = true
      ∧ ∀ j : nat, (j < k)%nat →
          Verify (text_word P (a + 4 * Z.of_nat j)) = false.
Proof.
  induction fuel as [|fuel IH]; intros a b Hw; [discriminate |].
  cbn [walk] in Hw. destruct (Verify (text_word P a)) eqn:Hv.
  - injection Hw as <-. exists 0%nat.
    repeat split; [lia | lia | done | lia].
  - destruct (IH _ _ Hw) as (k & Hk & -> & Hb & Hbefore).
    exists (S k). repeat split; [lia | lia | done |].
    intros [|j] Hj.
    + by replace (a + 4 * Z.of_nat 0) with a by lia.
    + replace (a + 4 * Z.of_nat (S j)) with (a + 4 + 4 * Z.of_nat j) by lia.
      apply Hbefore. lia.
Qed.

(** X12.  The address that the walk returns is a whole number of words
    after its start, within the fuel; the word there verifies and no word
    before it does; and more fuel does not change the answer. *)
Theorem walk_returns_first_match (P : Platform) (fuel : nat) (a b : ptr) :
  walk P fuel a = Some b →
  (∃ k : nat,
     (k < fuel)%nat ∧ b = a + 4 * Z.of_nat k
     ∧ BranchLinked_sig (text_word P b) = 37
     ∧ ∀ j : nat, (j < k)%nat →
         BranchLinked_sig (text_word P (a + 4 * Z.of_nat j)) ≠ 37)
  ∧ ∀ fuel' : nat, (fuel ≤ fuel')%nat → walk P fuel' a = Some b.
Proof.
  intros Hw. destruct (walk_sound P fuel a b Hw) as (k & Hk & -> & Hb & Hbef).
  split.
  - exists k. repeat split; [done | by apply Z.eqb_eq |].
    intros j Hj. apply Z.eqb_neq. by apply Hbef.
  - intros fuel' Hle. apply walk_finds_first; [done | done | lia].
Qed.

Lemma walk_returns_first_match_witness :
  (∃ k : nat,
     (k < 8)%nat ∧ 4108 = dlopen_addr good_platform + 4 * Z.of_nat k
     ∧ BranchLinked_sig (text_word good_platform 4108) = 37
     ∧ ∀ j : nat, (j < k)%nat →
         BranchLinked_sig
           (text_word good_platform (dlopen_addr good_platform + 4 * Z.of_nat j))
         ≠ 37)
  ∧ ∀ fuel' : nat,
      (8 ≤ fuel')%nat →
      walk good_platform fuel' (dlopen_addr good_platform) = Some 4108.
Proof.
  apply (walk_returns_first_match good_platform 8). reflexivity.
Defined.

(** X13.  The walk gives up exactly when none of the words within the
    fuel verifies. *)
Theorem walk_gives_up_without_match (P : Platform) (fuel : nat) (a : ptr) :
  walk P fuel a = None ↔
  ∀ j : nat, (j < fuel)%nat →
    BranchLinked_sig (text_word P (a + 4 * Z.of_nat j)) ≠ 37.
Proof.
  split.
  - revert a. induction fuel as [|fuel IH]; intros a Hw j Hj; [lia |].
    cbn [walk] in Hw. destruct (Verify (text_word P a)) eqn:Hv; [done |].
    destruct j as [|j].
    + replace (a + 4 * Z.of_nat 0) with a by lia. by apply Z.eqb_neq.
    + replace (a + 4 * Z.of_nat (S j)) with (a + 4 + 4 * Z.of_nat j) by lia.
      apply IH; [done | lia].
  - intros Hnone. destruct (walk P fuel a) as [b|] eqn:Hw; [| done].
    destruct (walk_sound P fuel a b Hw) as (k & Hk & -> & Hb & _).
    apply Z.eqb_eq in Hb. by apply Hnone in Hb.
Qed.

(** X14.  The two bit-fields cut a 32-bit word in two: the signature is
    below 64, the offset is a signed 26-bit number, and the word is the
    signature times 2^26 plus the offset modulo 2^26; so a word put
    together from a signature and an offset gives both back. *)
Theorem BranchLinked_fields (raw sig offset : Z) :
  (0 ≤ raw < 2 ^ 32 →
   0 ≤ BranchLinked_sig raw < 64
   ∧ - 2 ^ 25 ≤ BranchLinked_offset raw < 2 ^ 25
   ∧ raw = BranchLinked_sig raw * 2 ^ 26 + BranchLinked_offset raw mod 2 ^ 26)
  ∧ (0 ≤ sig < 64 → - 2 ^ 25 ≤ offset < 2 ^ 25 →
     BranchLinked_sig (sig * 2 ^ 26 + offset mod 2 ^ 26) = sig
     ∧ BranchLinked_offset (sig * 2 ^ 26 + offset mod 2 ^ 26) = offset).
Proof.
  split.
  - intros Hraw. rewrite BranchLinked_sig_bits.
    pose proof (BranchLinked_offset_range raw) as Hoff.
    assert (BranchLinked_offset raw mod 2 ^ 26 = raw mod 2 ^ 26) as Hmod.
    { rewrite BranchLinked_offset_signed.
      destruct (Z.testbit raw 25).
      - replace (raw mod 2 ^ 26 - 2 ^ 26)
          with (raw mod 2 ^ 26 + (-1) * 2 ^ 26) by lia.
        rewrite Z.mod_add by lia. apply Z.mod_mod. lia.
      - rewrite Z.sub_0_r. apply Z.mod_mod. lia. }
    rewrite Hmod.
    assert (raw / 2 ^ 26 < 64) by (apply Z.div_lt_upper_bound; lia).
    assert (0 ≤ raw / 2 ^ 26) by (apply Z.div_pos; lia).
    rewrite (Z.mod_small (raw / 2 ^ 26)) by lia.
    split; [lia |]. split; [lia |].
    rewrite Z.mul_comm. apply Z.div_mod. lia.
  - intros Hsig Hoff.
    pose proof (Z.mod_pos_bound offset (2 ^ 26) ltac:(lia)) as Hlow.
    assert ((sig * 2 ^ 26 + offset mod 2 ^ 26) / 2 ^ 26 = sig) as Hdiv.
    { rewrite Z.add_comm, Z.div_add by lia. rewrite Z.div_small; lia. }
    assert ((sig * 2 ^ 26 + offset mod 2 ^ 26) mod 2 ^ 26 = offset mod 2 ^ 26)
      as Hmod.
    { rewrite Z.add_comm, Z.mod_add by lia. apply Z.mod_mod. lia. }
    split.
    + rewrite BranchLinked_sig_bits, Hdiv. apply Z.mod_small. lia.
    + pose proof (BranchLinked_offset_range
                    (sig * 2 ^ 26 + offset mod 2 ^ 26)) as Hr.
      rewrite BranchLinked_offset_signed in *. rewrite Hmod in *.
      destruct (Z.testbit (sig * 2 ^ 26 + offset mod 2 ^ 26) 25).
      * destruct (Z_lt_le_dec offset 0) as [Hneg | Hpos].
        -- replace offset with (offset + 2 ^ 26 + (-1) * 2 ^ 26) at 1 by lia.
           rewrite Z.mod_add by lia. rewrite Z.mod_small; lia.
        -- rewrite Z.mod_small in Hr by lia. lia.
      * destruct (Z_lt_le_dec offset 0) as [Hneg | Hpos].
        -- replace offset with (offset + 2 ^ 26 + (-1) * 2 ^ 26) in Hr at 1 2
             by lia.
           rewrite Z.mod_add in Hr by lia. rewrite Z.mod_small in Hr; lia.
        -- rewrite Z.mod_small by lia. lia.
Qed.

Lemma BranchLinked_fields_witness :
  0 ≤ BranchLinked_sig 2483027984 < 64
  ∧ - 2 ^ 25 ≤ BranchLinked_offset 2483027984 < 2 ^ 25
  ∧ 2483027984 = BranchLinked_sig 2483027984 * 2 ^ 26
                 + BranchLinked_offset 2483027984 mod 2 ^ 26.
Proof.
  apply (BranchLinked_fields 2483027984 37 (-1)). lia.
Defined.

(** X15.  The address that the resolver takes for the internal [dlopen]
    lies within 2^27 bytes of the branch word that the walk found, and a
    whole number of words from the entry of [dlopen]. *)
Theorem loader_dlopen_within_branch_reach (P : Platform) (fuel : nat)
    (target : ptr) :
  find_loader_dlopen P fuel = Some target →
  ∃ blInstr : ptr,
    walk P fuel (dlopen_addr P) = Some blInstr
    ∧ - 2 ^ 27 ≤ target - blInstr < 2 ^ 27
    ∧ (target - dlopen_addr P) mod 4 = 0.
Proof.
  unfold find_loader_dlopen. intros Hf.
  destruct (walk P fuel (dlopen_addr P)) as [bl|] eqn:Hw; [| discriminate].
  injection Hf as <-. exists bl. split; [done |].
  pose proof (BranchLinked_offset_range (text_word P bl)) as Hr.
  split; [lia |].
  destruct (walk_sound P fuel _ _ Hw) as (k & _ & -> & _).
  replace (dlopen_addr P + 4 * Z.of_nat k
           + 4 * BranchLinked_offset
                   (text_word P (dlopen_addr P + 4 * Z.of_nat k))
           - dlopen_addr P)
    with ((Z.of_nat k
           + BranchLinked_offset
               (text_word P (dlopen_addr P + 4 * Z.of_nat k))) * 4) by lia.
  apply Z.mod_mul. lia.
Qed.

Lemma loader_dlopen_within_branch_reach_witness :
  ∃ blInstr : ptr,
    walk good_platform 8 (dlopen_addr good_platform) = Some blInstr
    ∧ - 2 ^ 27 ≤ 4172 - blInstr < 2 ^ 27
    ∧ (4172 - dlopen_addr good_platform) mod 4 = 0.
Proof.
  apply (loader_dlopen_within_branch_reach good_platform 8). reflexivity.
Defined.

(** X16.  When the constructor leaves the readiness flag true, it has
    made exactly eight resolutions, in this order and all with answers
    other than null: the two private libraries are opened through the
    address found by the walk on behalf of [dlopen], the third library
    through the public [dlopen]; and each of the five entry points holds
    the answer of the lookup of its symbol. *)
Theorem ready_table_is_resolved (P : Platform) (fuel : nat) (st : State) :
  resolve_linker_symbols P fuel process_start = Some st →
  lib_loaded st = true →
  ∃ target ldHandle libdlAndroidHandle libdlHandle : ptr,
    find_loader_dlopen P fuel = Some target
    ∧ trace st =
        [EvLoaderDlopen target "ld-android.so" RTLD_LAZY (dlopen_addr P)
           ldHandle;
         EvDlsym ldHandle "__loader_android_link_namespaces_all_libs"
           (android_link_namespaces_all_libs st);
         EvDlsym ldHandle "__loader_android_link_namespaces"
           (android_link_namespaces st);
         EvLoaderDlopen target "libdl_android.so" RTLD_LAZY (dlopen_addr P)
           libdlAndroidHandle;
         EvDlsym libdlAndroidHandle "__loader_android_create_namespace"
           (loader_android_create_namespace st);
         EvDlsym libdlAndroidHandle "__loader_android_get_exported_namespace"
           (android_get_exported_namespace st);
         EvDlopen "libdl.so" RTLD_LAZY libdlHandle;
         EvDlsym libdlHandle "android_dlopen_ext"
           (libdl_android_dlopen_ext st)]
    ∧ ldHandle ≠ nullptr ∧ libdlAndroidHandle ≠ nullptr
    ∧ libdlHandle ≠ nullptr
    ∧ android_link_namespaces_all_libs st ≠ nullptr
    ∧ android_link_namespaces st ≠ nullptr
    ∧ loader_android_create_namespace st ≠ nullptr
    ∧ android_get_exported_namespace st ≠ nullptr
    ∧ libdl_android_dlopen_ext st ≠ nullptr.
Proof.
  unfold resolve_linker_symbols.
  destruct (find_loader_dlopen P fuel) as [target|]; [| discriminate].
  intros [= <-] Hready. exists target. revert Hready.
  resolve_wp P target; intros Hready; try discriminate; norm_bools;
    eexists _, _, _; (split; [reflexivity |]); (split; [reflexivity |]);
    repeat split; done.
Qed.

Lemma ready_table_is_resolved_witness :
  resolve_linker_symbols good_platform 8 process_start
  = Some (resolve_from good_platform 4172 process_start).2
  ∧ android_link_namespaces_all_libs
      (resolve_from good_platform 4172 process_start).2 ≠ nullptr
  ∧ libdl_android_dlopen_ext
      (resolve_from good_platform 4172 process_start).2 ≠ nullptr.
Proof.
  split; [reflexivity |].
  destruct (ready_table_is_resolved good_platform 8
              (resolve_from good_platform 4172 process_start).2)
    as (t & h1 & h2 & h3 & _ & _ & _ & _ & _ & Hall & _ & _ & _ & Hext);
    [reflexivity | reflexivity |].
  exact (conj Hall Hext).
Defined.

(** X17.  When the constructor leaves the readiness flag false, the last
    resolution it made is the one that failed and all before it
    succeeded; its trace is the eight resolutions of the source with the
    platform's answers, up to and with that failure.  Nothing is rolled
    back: every entry point holds the platform's answer to the lookup of
    its symbol when that lookup was made, so one resolved before the
    failure keeps its address, and is null when the lookup was not
    reached. *)
Theorem failed_resolution_is_last (P : Platform) (fuel : nat) (st : State) :
  resolve_linker_symbols P fuel process_start = Some st →
  lib_loaded st = false →
  (∃ (before : list Event) (e : Event),
     trace st = before ++ [e]
     ∧ forallb resolution_succeeded before = true
     ∧ resolution_succeeded e = false)
  ∧ (length (trace st) ≤ 8)%nat
  ∧ (android_link_namespaces_all_libs st ≠ nullptr ↔
     (2 < length (trace st))%nat)
  ∧ (android_link_namespaces st ≠ nullptr ↔ (3 < length (trace st))%nat)
  ∧ (loader_android_create_namespace st ≠ nullptr ↔
     (5 < length (trace st))%nat)
  ∧ (android_get_exported_namespace st ≠ nullptr ↔
     (6 < length (trace st))%nat)
  ∧ libdl_android_dlopen_ext st = nullptr
  ∧ (∃ target : ptr,
       find_loader_dlopen P fuel = Some target
       ∧ trace st = upto_first_failure (resolver_events P target))
  ∧ android_link_namespaces_all_libs st
    = lookup_answer "__loader_android_link_namespaces_all_libs" (trace st)
  ∧ android_link_namespaces st
    = lookup_answer "__loader_android_link_namespaces" (trace st)
  ∧ loader_android_create_namespace st
    = lookup_answer "__loader_android_create_namespace" (trace st)
  ∧ android_get_exported_namespace st
    = lookup_answer "__loader_android_get_exported_namespace" (trace st).
Proof.
  unfold resolve_linker_symbols.
  destruct (find_loader_dlopen P fuel) as [target|]; [| discriminate].
  intros [= <-].
  destruct (resolve_from_trace P target)
    as (Htr & _ & Hall & Hlink & Hcreate & Hexp & _).
  intros Hready.
  split; [| split; [| split; [| split; [| split; [| split;
    [| split; [| split]]]]]]].
  9: by repeat split.
  8: by exists target.
  all: revert Hready; clear.
  all: resolve_wp P target; intros Hready; try discriminate.
  all: try (cbn [length]; norm_bools; subst;
            first [done | lia | split; intros; first [done | lia]]).
  all: lazymatch goal with
       | |- ∃ before e, [?e1] = _ ∧ _ => exists [], e1
       | |- ∃ before e, [?e1; ?e2] = _ ∧ _ => exists [e1], e2
       | |- ∃ before e, [?e1; ?e2; ?e3] = _ ∧ _ => exists [e1; e2], e3
       | |- ∃ before e, [?e1; ?e2; ?e3; ?e4] = _ ∧ _ =>
           exists [e1; e2; e3], e4
       | |- ∃ before e, [?e1; ?e2; ?e3; ?e4; ?e5] = _ ∧ _ =>
           exists [e1; e2; e3; e4], e5
       | |- ∃ before e, [?e1; ?e2; ?e3; ?e4; ?e5; ?e6] = _ ∧ _ =>
           exists [e1; e2; e3; e4; e5], e6
       | |- ∃ before e, [?e1; ?e2; ?e3; ?e4; ?e5; ?e6; ?e7] = _ ∧ _ =>
           exists [e1; e2; e3; e4; e5; e6], e7
       | |- ∃ before e, [?e1; ?e2; ?e3; ?e4; ?e5; ?e6; ?e7; ?e8] = _ ∧ _ =>
           exists [e1; e2; e3; e4; e5; e6; e7], e8
       end;
       (split; [reflexivity |]);
       cbn [forallb resolution_succeeded]; use_tests; done.
Qed.

(** The third library does not open: seven resolutions are made, and the
    four entry points resolved before the failure hold the answers of
    their lookups. *)
Lemma failed_resolution_is_last_witness :
  resolve_linker_symbols no_libdl_platform 8 process_start
  = Some (resolve_from no_libdl_platform 4172 process_start).2
  ∧ (length (trace (resolve_from no_libdl_platform 4172%Z process_start).2)
     ≤ 8)%nat
  ∧ android_get_exported_namespace
      (resolve_from no_libdl_platform 4172 process_start).2
    = lookup_answer "__loader_android_get_exported_namespace"
        (trace (resolve_from no_libdl_platform 4172 process_start).2)
  ∧ libdl_android_dlopen_ext
      (resolve_from no_libdl_platform 4172 process_start).2 = nullptr.
Proof.
  split; [reflexivity |].
  destruct (failed_resolution_is_last no_libdl_platform 8
              (resolve_from no_libdl_platform 4172 process_start).2)
    as (_ & Hlen & _ & _ & _ & _ & Hext & _ & _ & _ & _ & Hexp);
    [reflexivity | reflexivity |].
  exact (conj Hlen (conj Hexp Hext)).
Defined.

(** X18.  A call with a target directory never asks for an anonymous
    file in memory.  When it requests a destination, it makes one request:
    it opens, for reading and writing and creating it if need be, with
    permissions for the owner alone, the file named by the counter in the
    directory.  When the file does not open, the call ends there: it
    returns the null pointer, leaves the counter, and the scratch path
    buffer holds the name of the file. *)
Theorem file_destination_request (P : Platform) (rq : LoadRequest)
    (s : State) (dir : string) :
  libTargetDir rq = Some dir →
  existsb is_memfd (load_events P rq s) = false
  ∧ (existsb is_destination (load_events P rq s) = true →
     ∃ fd : Z,
       List.filter is_destination (load_events P rq s) =
         [EvOpen (target_path dir (TargetId s)) (Z.lor O_CREAT O_RDWR)
            (Z.lor S_IRUSR S_IWUSR) fd]
       ∧ (fd = -1 →
          load_result P rq s = nullptr
          ∧ last (load_events P rq s) =
              Some (EvOpen (target_path dir (TargetId s))
                      (Z.lor O_CREAT O_RDWR) (Z.lor S_IRUSR S_IWUSR) fd)
          ∧ TargetId (load_state P rq s) = TargetId s
          ∧ PathBuf (load_state P rq s) = target_path dir (TargetId s))).
Proof.
  intros Hdir. load_wp P rq s; try congruence; simplify_eq;
    (split; [reflexivity |]);
    cbn [existsb is_destination orb List.filter]; intros Hreq;
    try discriminate; eexists; (split; [reflexivity |]);
    intros ->; norm_bools; first [done | lia].
Qed.

(** A call with a target directory on a platform where no file opens. *)
Lemma file_destination_request_witness :
  existsb is_memfd (load_events no_file_platform sample_request process_start)
  = false
  ∧ load_result no_file_platform sample_request process_start = nullptr.
Proof.
  destruct (file_destination_request no_file_platform sample_request
              process_start "/data/cache") as (Hmem & Hreq); [reflexivity |].
  split; [exact Hmem |].
  destruct Hreq as (fd & Hfilter & Hfail); [reflexivity |].
  injection Hfilter as <-. apply Hfail. reflexivity.
Defined.

(** X19.  The final load is made exactly when a destination descriptor
    was obtained and the patch did not fail.  When it is made, it is the
    last platform call and its answer is what the call returns; when it is
    not made, the call returns the null pointer. *)
Theorem final_load_decides_result (P : Platform) (rq : LoadRequest)
    (s : State) :
  (existsb is_fd_load (load_events P rq s) = true ↔
   existsb descriptor_obtained (load_events P rq s) = true
   ∧ existsb patch_failed (load_events P rq s) = false)
  ∧ (existsb is_fd_load (load_events P rq s) = false →
     load_result P rq s = nullptr)
  ∧ (existsb is_fd_load (load_events P rq s) = true →
     ∃ e : Event,
       last (load_events P rq s) = Some e
       ∧ is_fd_load e = true
       ∧ load_answer e = load_result P rq s).
Proof.
  load_wp P rq s;
    cbn [existsb is_fd_load descriptor_obtained patch_failed flags orb];
    change (negb (Z.land ANDROID_DLEXT_USE_NAMESPACE
                    ANDROID_DLEXT_USE_LIBRARY_FD =? 0)) with false;
    change (negb (Z.land
                    (Z.lor ANDROID_DLEXT_USE_NAMESPACE
                       ANDROID_DLEXT_USE_LIBRARY_FD)
                    ANDROID_DLEXT_USE_LIBRARY_FD =? 0)) with true;
    use_tests; cbn [negb orb andb];
    (split; [split; intros; norm_bools; first [done | lia | by split] |]);
    (split; [intros; first [done | discriminate] |]);
    intros; first [discriminate | eexists; repeat split].
Qed.

Lemma final_load_decides_result_witness :
  existsb is_fd_load
    (load_events no_patch_platform sample_request process_start) = false
  ∧ load_result no_patch_platform sample_request process_start = nullptr.
Proof.
  split; [reflexivity |].
  apply (final_load_decides_result no_patch_platform sample_request
           process_start). reflexivity.
Defined.
